(** * neuron_dynamics: the neuron models and the simulator loop

    A shallow embedding of [models.js] (the table [NEURON_MODELS] with the
    three [simulate] step functions) and of [simulator.js] (the class
    [Simulator]), followed by the properties of the simulation core.

    Numbers are JavaScript numbers, that is IEEE 754 binary64 values: they
    are embedded as Rocq's primitive [float], whose [+ - * /], comparisons
    and [abs] are the binary64 operations JavaScript evaluates.  Decimal
    literals are rounded to the nearest binary64 value in both languages.
    A state is a plain object read and written by property name: a finite
    map from property names to numbers, a missing property reading as
    [undefined]. *)

From Stdlib Require Import PrimFloat.
From stdpp Require Import gmap strings list.

Set Warnings "-inexact-float".
Set Default Proof Using "Type".

(** ** JavaScript values and numbers *)

Module Js.

(** The result of a property read or of an array destructuring slot:
    a number, or [undefined] when the property or slot is absent. *)
Definition value : Type := option float.

(** [ToNumber]: [undefined] becomes [NaN] as soon as it meets an
    arithmetic operator or a relational comparison. *)
Definition ToNumber (v : value) : float :=
  match v with
  | Some x => x
  | None => nan
  end.

(** [a >= b] and [a < b] on numbers; both are [false] when an operand is
    [NaN], as [PrimFloat.leb] and [PrimFloat.ltb] are. *)
Definition ge (a b : float) : bool := PrimFloat.leb b a.
Definition gt (a b : float) : bool := PrimFloat.ltb b a.
Definition lt (a b : float) : bool := PrimFloat.ltb a b.

(** [v !== undefined] *)
Definition is_defined (v : value) : bool :=
  match v with
  | Some _ => true
  | None => false
  end.

(** The property names every plain object inherits from
    [Object.prototype].  A read [table[key]] of a table that has no own
    entry under such a name finds the inherited property, not
    [undefined]. *)
Definition Object_prototype : list string :=
  [ "constructor"; "hasOwnProperty"; "isPrototypeOf";
    "propertyIsEnumerable"; "toLocaleString"; "toString"; "valueOf";
    "__proto__"; "__defineGetter__"; "__defineSetter__";
    "__lookupGetter__"; "__lookupSetter__" ].

Definition inherited (key : string) : bool :=
  existsb (String.eqb key) Object_prototype.

(** A number that [JSON.parse(JSON.stringify(x))] gives back as it is:
    a finite number other than [-0] ([-0] comes back as [0], [NaN] and
    the infinities come back as [null]). *)
Definition json_safe (x : float) : bool :=
  is_finite x && negb (is_zero x && get_sign x).

(** [hay.includes(needle)] on strings. *)
Fixpoint includes (needle hay : string) : bool :=
  String.prefix needle hay ||
  match hay with
  | EmptyString => false
  | String _ rest => includes needle rest
  end.

(** [Math.exp] is implementation-approximated in ECMAScript, so the
    embedding of every function that calls it takes it as a parameter
    [exp].  [exp_ref] is one concrete instance (a degree-12 Taylor
    polynomial at [x / 1024], squared ten times), used only where a model
    is run on concrete inputs. *)
Definition exp_ref (x : float) : float :=
  let y := (x / 1024)%float in
  let p := (1 + y * (1 + y / 2 * (1 + y / 3 * (1 + y / 4 * (1 + y / 5 *
           (1 + y / 6 * (1 + y / 7 * (1 + y / 8 * (1 + y / 9 *
           (1 + y / 10 * (1 + y / 11 * (1 + y / 12))))))))))))%float in
  Nat.iter 10 (fun q => (q * q)%float) p.

End Js.

(** ** models.js *)

(** A state object, for instance [{ x: -70, y: 0, z: 0, t: 0 }]. *)
Abbreviation State := (gmap string float).

(** A state object all of whose components the JSON copy gives back
    as they are. *)
Definition json_safe_state (o : State) : bool :=
  forallb (fun kv => Js.json_safe (snd kv)) (map_to_list o).

(** One entry of a model's [parameters] array. *)
Record ParameterSpec : Type := {
  id : string;
  label : string;
  min : float;
  max : float;
  step : float;
  value : float;
}.

(** One entry of [NEURON_MODELS].  The [equation] markup and the
    [plotConfig] of an entry are handed to the page and to the plotting
    library only; they are not part of the embedding. *)
Record System : Type := {
  name : string;
  parameters : list ParameterSpec;
  initialState : State;
  simulate : list float -> State -> float -> State;
}.

(** [const [a, b, ...] = params]: slot [i] of the array, [undefined] past
    its end, read as a number. *)
Definition slot (params : list float) (i : nat) : float :=
  Js.ToNumber (params !! i).

(** [state.k] read as a number. *)
Definition prop (state : State) (k : string) : float :=
  Js.ToNumber (state !! k).

Module lif.
Local Open Scope float_scope.

Definition name : string := "Leaky Integrate-and-Fire (LIF)".

Definition parameters : list ParameterSpec :=
  [ {| id := "I"; label := "Input Current (nA)";
       min := 0; max := 40; step := 0.5; value := 21 |};
    {| id := "tau"; label := "Time Constant τ (ms)";
       min := 5; max := 50; step := 1; value := 20 |};
    {| id := "Vth"; label := "Threshold (mV)";
       min := -60; max := -40; step := 1; value := -50 |};
    {| id := "El"; label := "Resting Pot. (mV)";
       min := -80; max := -60; step := 1; value := -70 |} ].

Definition initialState : State :=
  <["x" := -70]> (<["y" := 0]> (<["z" := 0]> (<["t" := 0]> ∅))).

(** [const V_reset = El - 5;] *)
Definition V_reset (El : float) : float := El - 5.

Definition simulate (params : list float) (state : State) (dt : float)
  : State :=
  let I := slot params 0 in
  let tau := slot params 1 in
  let Vth := slot params 2 in
  let El := slot params 3 in
  let V_reset := V_reset El in
  let V := prop state "x" in
  let V := if Js.ge V Vth then V_reset else V in
  let dV := (El - V + I) / tau in
  let newV := V + dt * dV in
  let newV := if Js.ge newV Vth then 0 else newV in  (* Visual Spike *)
  <["x" := newV]> (<["t" := prop state "t" + dt]> ∅).

End lif.

Module izhikevich_rs.
Local Open Scope float_scope.

Definition name : string := "Izhikevich (Regular Spiking)".

Definition parameters : list ParameterSpec :=
  [ {| id := "I"; label := "Input Current";
       min := 0; max := 25; step := 0.5; value := 10 |};
    {| id := "a"; label := "a (Time Scale)";
       min := 0.01; max := 0.1; step := 0.01; value := 0.02 |};
    {| id := "b"; label := "b (Sensitivity)";
       min := 0.1; max := 0.3; step := 0.05; value := 0.2 |};
    {| id := "c"; label := "c (Reset V)";
       min := -75; max := -50; step := 1; value := -65 |};
    {| id := "d"; label := "d (Reset u)";
       min := 0; max := 12; step := 0.5; value := 8 |} ].

Definition initialState : State :=
  <["x" := -65]> (<["y" := -13]> (<["z" := 0]> (<["t" := 0]> ∅))).

Definition simulate (params : list float) (state : State) (dt : float)
  : State :=
  let I := slot params 0 in
  let a := slot params 1 in
  let b := slot params 2 in
  let c := slot params 3 in
  let d := slot params 4 in
  let v := prop state "x" in
  let u := prop state "y" in
  let '(v, u) := if Js.ge v 30 then (c, u + d) else (v, u) in
  let dv := 0.04 * v * v + 5 * v + 140 - u + I in
  let du := a * (b * v - u) in
  let newV := v + dt * dv in
  let newV := if Js.ge newV 30 then 30 else newV in
  <["x" := newV]> (<["y" := u + dt * du]> (<["t" := prop state "t" + dt]> ∅)).

End izhikevich_rs.

Module hodgkin_huxley.
Local Open Scope float_scope.

Definition name : string := "Hodgkin–Huxley (Biophysical)".

Definition parameters : list ParameterSpec :=
  [ {| id := "I_ext"; label := "Input Current (µA)";
       min := 0; max := 20; step := 0.5; value := 10 |};
    {| id := "gNa"; label := "gNa (mS/cm²)";
       min := 0; max := 200; step := 10; value := 120 |};
    {| id := "gK"; label := "gK (mS/cm²)";
       min := 0; max := 50; step := 5; value := 36 |};
    {| id := "gL"; label := "gL (mS/cm²)";
       min := 0; max := 1.0; step := 0.1; value := 0.3 |} ].

(** n is initialized dynamically *)
Definition initialState : State :=
  <["x" := -65]> (<["y" := 0.05]> (<["z" := 0.6]> (<["t" := 0]> ∅))).

(** Standard HH constants *)
Definition ENa : float := 50.
Definition EK : float := -77.
Definition EL : float := -54.4.
Definition Cm : float := 1.0.

Section Rates.
(** [Math.exp] *)
Variable exp : float -> float.

(** Alpha n: singularity at -55 *)
Definition alpha_n (V : float) : float :=
  if Js.lt (abs (V + 55)) 1e-5
  then 0.1
  else (0.01 * (V + 55)) / (1 - exp ((- (V + 55)) / 10)).

Definition beta_n (V : float) : float :=
  0.125 * exp ((- (V + 65)) / 80).

(** Alpha m: singularity at -40 *)
Definition alpha_m (V : float) : float :=
  if Js.lt (abs (V + 40)) 1e-5
  then 1.0
  else (0.1 * (V + 40)) / (1 - exp ((- (V + 40)) / 10)).

Definition beta_m (V : float) : float :=
  4 * exp ((- (V + 65)) / 18).

(** h (no singularities) *)
Definition alpha_h (V : float) : float :=
  0.07 * exp ((- (V + 65)) / 20).

Definition beta_h (V : float) : float :=
  1 / (1 + exp ((- (V + 35)) / 10)).

Definition simulate (params : list float) (state : State) (dt : float)
  : State :=
  let I_ext := slot params 0 in
  let gNaMax := slot params 1 in
  let gKMax := slot params 2 in
  let gL := slot params 3 in
  (* Unpack state (x=V, y=m, z=h) *)
  let V := prop state "x" in
  let m := prop state "y" in
  let h := prop state "z" in
  let n := if Js.is_defined (state !! "n")
           then prop state "n" else 0.32 in
  (* Currents *)
  let INa := gNaMax * (m * m * m) * h * (V - ENa) in
  let IK := gKMax * (n * n * n * n) * (V - EK) in
  let IL := gL * (V - EL) in
  (* Derivatives *)
  let dV := (I_ext - INa - IK - IL) / Cm in
  let dm := alpha_m V * (1 - m) - beta_m V * m in
  let dh := alpha_h V * (1 - h) - beta_h V * h in
  let dn := alpha_n V * (1 - n) - beta_n V * n in
  <["x" := V + dt * dV]>
    (<["y" := m + dt * dm]>
       (<["z" := h + dt * dh]>
          (<["n" := n + dt * dn]>  (* Save n for next step *)
             (<["t" := prop state "t" + dt]> ∅)))).
End Rates.

End hodgkin_huxley.

(** The three entries of the table [NEURON_MODELS], and the table in the
    order of its keys. *)
Definition lif_model : System :=
  {| name := lif.name; parameters := lif.parameters;
     initialState := lif.initialState; simulate := lif.simulate |}.

Definition izhikevich_rs_model : System :=
  {| name := izhikevich_rs.name;
     parameters := izhikevich_rs.parameters;
     initialState := izhikevich_rs.initialState;
     simulate := izhikevich_rs.simulate |}.

Definition hodgkin_huxley_model (exp : float -> float) : System :=
  {| name := hodgkin_huxley.name;
     parameters := hodgkin_huxley.parameters;
     initialState := hodgkin_huxley.initialState;
     simulate := hodgkin_huxley.simulate exp |}.

Definition NEURON_MODELS (exp : float -> float) : list (string * System) :=
  [ ("lif", lif_model);
    ("izhikevich_rs", izhikevich_rs_model);
    ("hodgkin_huxley", hodgkin_huxley_model exp) ].

(** ** simulator.js *)

Module Simulator.

(** An element of [plotData]: the array [[state.t, state.x]]. *)
Definition Sample : Type := Js.value * Js.value.

(** The second argument of the constructor; [None] is an absent key. *)
Record Options : Type := {
  opt_dt : option float;
  opt_defaultSystem : option string;
}.

(** The fields of a [Simulator] object.  [sliders] stands for the page's
    [.js-param-slider] inputs (their current values, in document order)
    and [nextFrame] for the handle the next [requestAnimationFrame] call
    of the host returns; the rest of the page (markup, plot) only
    receives data. *)
Record t : Type := mk {
  systems : list (string * System);
  options_dt : float;
  options_defaultSystem : string;
  currentSystemKey : string;
  animationId : option positive;
  plotData : list Sample;
  state : option State;
  sliders : list float;
  nextFrame : positive;
}.

Definition set_currentSystemKey (k : string) (s : t) : t :=
  mk (systems s) (options_dt s) (options_defaultSystem s) k
     (animationId s) (plotData s) (state s) (sliders s) (nextFrame s).

Definition set_animationId (a : option positive) (s : t) : t :=
  mk (systems s) (options_dt s) (options_defaultSystem s)
     (currentSystemKey s) a (plotData s) (state s) (sliders s)
     (nextFrame s).

Definition set_plotData (d : list Sample) (s : t) : t :=
  mk (systems s) (options_dt s) (options_defaultSystem s)
     (currentSystemKey s) (animationId s) d (state s) (sliders s)
     (nextFrame s).

Definition set_state (st : option State) (s : t) : t :=
  mk (systems s) (options_dt s) (options_defaultSystem s)
     (currentSystemKey s) (animationId s) (plotData s) st (sliders s)
     (nextFrame s).

Definition set_sliders (v : list float) (s : t) : t :=
  mk (systems s) (options_dt s) (options_defaultSystem s)
     (currentSystemKey s) (animationId s) (plotData s) (state s) v
     (nextFrame s).

Definition set_nextFrame (n : positive) (s : t) : t :=
  mk (systems s) (options_dt s) (options_defaultSystem s)
     (currentSystemKey s) (animationId s) (plotData s) (state s)
     (sliders s) n.

(** The only exception the class can raise: a property read on
    [undefined] or [null]. *)
Inductive Error : Type :=
| TypeError (what : string).

(** A method body: it runs on the object, may assign to its fields, and
    either returns or throws; the assignments made before a [throw]
    stay. *)
Definition Exec (A : Type) : Type := t -> t * (Error + A).

#[global] Instance Exec_ret : MRet Exec :=
  fun A a s => (s, inr a).

#[global] Instance Exec_bind : MBind Exec :=
  fun A B f m s =>
    match m s with
    | (s', inr a) => f a s'
    | (s', inl e) => (s', inl e)
    end.

Definition throw {A : Type} (e : Error) : Exec A :=
  fun s => (s, inl e).

Definition this : Exec t :=
  fun s => (s, inr s).

Definition assign (f : t -> t) : Exec unit :=
  fun s => (f s, inr tt).

(** The own entry of the table under [key], if there is one.  For a
    [key] outside [Js.Object_prototype] this is the whole read
    [systemsMap[key]], [None] being [undefined]; for a name of
    [Js.Object_prototype] without an own entry the read finds the
    inherited property, which is no model either. *)
Fixpoint lookup_system (systemsMap : list (string * System))
    (key : string) : option System :=
  match systemsMap with
  | [] => None
  | (k, system) :: rest =>
      if String.eqb k key then Some system
      else lookup_system rest key
  end.

(** [getCurrentSystem()], as far as it yields a model. *)
Definition getCurrentSystem (s : t) : option System :=
  lookup_system (systems s) (currentSystemKey s).

(** [updateUIControls()]: reads [system.equation] and
    [system.parameters] and renders one slider per parameter, set to
    the parameter's [value].  The host may move a rendered value onto the
    slider's range and step grid; the embedding takes the declared
    values. *)
Definition updateUIControls : Exec unit :=
  s ← this;
  match getCurrentSystem s with
  | None => throw (TypeError "system.equation")
  | Some system => assign (set_sliders (value <$> parameters system))
  end.

(** [getParameters()] *)
Definition getParameters (s : t) : list float := sliders s.

(** [JSON.parse(JSON.stringify(o))] of a state object that satisfies
    [json_safe_state]: a fresh object with the same components (maps are
    values here, so nothing is shared with the table entry). *)
Definition deep_copy (o : State) : State := o.

(** [restart()]; [initPlot()] only draws. *)
Definition restart : Exec unit :=
  s ← this;
  match getCurrentSystem s with
  | None => throw (TypeError "system.initialState")
  | Some system =>
      let st := deep_copy (initialState system) in
      assign (set_state (Some st));;
      assign (set_plotData [(st !! "t", st !! "x")])
  end.

(** [reset()] *)
Definition reset : Exec unit :=
  updateUIControls;; restart.

(** The host's [requestAnimationFrame(callback)]: it returns a fresh
    non-zero handle; the callback is a later call of [animate]. *)
Definition requestAnimationFrame : Exec positive :=
  s ← this;
  assign (set_nextFrame (Pos.succ (nextFrame s)));;
  mret (nextFrame s).

(** [start()] *)
Definition start : Exec unit :=
  s ← this;
  match animationId s with
  | Some _ => mret tt
  | None =>
      h ← requestAnimationFrame;
      assign (set_animationId (Some h))
  end.

(** [stop()] *)
Definition stop : Exec unit :=
  s ← this;
  match animationId s with
  | Some _ => assign (set_animationId None)
  | None => mret tt
  end.

(** The listener [bindEvents()] puts on the model select, called with
    [e.target.value]; the [setTimeout(() => this.start(), 50)] it ends
    with is a later call of [start]. *)
Definition onSystemChange (key : string) : Exec unit :=
  stop;;
  assign (set_currentSystemKey key);;
  reset.

(** [const stepsPerFrame = system.name.includes('Hodgkin') ? 20 : 10;] *)
Definition stepsPerFrame (system : System) : nat :=
  if Js.includes "Hodgkin" (name system) then 20 else 10.

(** One iteration of the loop of [animate()]:
    [this.state = system.simulate(params, this.state, dt);
     this.plotData.push([this.state.t, this.state.x]);]
    The step functions read [state.x], which throws on [null]. *)
Definition animate_step (system : System) (params : list float)
    (dt : float) : Exec unit :=
  s ← this;
  match state s with
  | None => throw (TypeError "state.x")
  | Some st =>
      let st' := simulate system params st dt in
      assign (set_state (Some st'));;
      assign (fun s => set_plotData (plotData s ++ [(st' !! "t", st' !! "x")]) s)
  end.

(** [for (let i = 0; i < stepsPerFrame; i++) { ... }] *)
Fixpoint animate_loop (n : nat) (system : System) (params : list float)
    (dt : float) : Exec unit :=
  match n with
  | O => mret tt
  | S n' =>
      animate_step system params dt;;
      animate_loop n' system params dt
  end.

(** What [updatePlotView()] hands to the plot: the two columns of
    [plotData] and the range of the time axis. *)
Definition xRange (tm : float) : float * float :=
  if Js.gt tm 180 then ((tm - 180)%float, (tm + 20)%float)
  else (0%float, 200%float).

Definition updatePlotView (s : t)
  : option (list Js.value * list Js.value * (float * float)) :=
  match state s with
  | None => None
  | Some st =>
      Some (fst <$> plotData s, snd <$> plotData s, xRange (prop st "t"))
  end.

(** [animate()]; the call of [updatePlotView()] assigns no field. *)
Definition animate : Exec unit :=
  s ← this;
  match animationId s with
  | None => mret tt
  | Some _ =>
      match getCurrentSystem s with
      | None => throw (TypeError "system.name")
      | Some system =>
          let params := getParameters s in
          let dt := options_dt s in
          let stepsPerFrame := stepsPerFrame system in
          animate_loop stepsPerFrame system params dt;;
          s ← this;
          (if bool_decide (5000 < length (plotData s))
           then assign (set_plotData (drop stepsPerFrame (plotData s)))
           else mret tt);;
          h ← requestAnimationFrame;
          assign (set_animationId (Some h))
      end
  end.

(** [new Simulator(containerId, systemsMap, options)], on a page that
    has the elements [init()] looks up; the [setTimeout] that ends
    [init()] is a later call of [start]. *)
Definition create (systemsMap : list (string * System))
    (options : Options) : t * (Error + unit) :=
  let defaultSystem :=
    match opt_defaultSystem options with
    | Some k => k
    | None => default "undefined" (fst <$> head systemsMap)
    end in
  let dt := default 0.02%float (opt_dt options) in
  reset (mk systemsMap dt defaultSystem defaultSystem None [] None [] 1%positive).

(** The object after [n] successive calls of [animate()]. *)
Fixpoint frames (n : nat) (s : t) : t :=
  match n with
  | O => s
  | S n' => frames n' (fst (animate s))
  end.

(** Sample times do not decrease along a buffer. *)
Definition time (p : Sample) : float := Js.ToNumber (fst p).

Fixpoint time_ordered (l : list Sample) : bool :=
  match l with
  | a :: (b :: _) as rest => PrimFloat.leb (time a) (time b) && time_ordered rest
  | _ => true
  end.

End Simulator.

(** The application of the entry script:
    [new Simulator('app-mount', NEURON_MODELS, { defaultSystem: 'lif', dt: 0.02 })]. *)
Definition app (exp : float -> float) : Simulator.t :=
  fst (Simulator.create (NEURON_MODELS exp)
         {| Simulator.opt_dt := Some 0.02%float;
            Simulator.opt_defaultSystem := Some "lif" |}).

(** ** The update rules in the words of the specification *)

Module Spec.
Local Open Scope float_scope.

(** Forward Euler: [next = current + dt * derivative(current)]. *)
Definition forward_euler (current derivative dt : float) : float :=
  current + dt * derivative.

(** Leaky integrate-and-fire: [dV/dt = (E_L - V + R*I) / tau], with the
    unit resistance the model leaves implicit. *)
Definition lif_dV (I tau El V : float) : float := (El - V + I) / tau.

(** The reported value after integration: the spike marker [0] once the
    threshold is reached. *)
Definition lif_report (Vth newV : float) : float :=
  if Js.ge newV Vth then 0 else newV.

(** Relaxation oscillator: the two derivatives. *)
Definition izh_dv (I v u : float) : float :=
  0.04 * v * v + 5 * v + 140 - u + I.

Definition izh_du (a b v u : float) : float := a * (b * v - u).

End Spec.

(** ** Concrete inputs *)

Module Inputs.
Local Open Scope float_scope.

(** The slider defaults of the leaky integrate-and-fire model:
    [I = 21, tau = 20, Vth = -50, El = -70]. *)
Definition lif_defaults : list float := value <$> lif.parameters.

(** The slider defaults of the relaxation oscillator and of the
    conductance-based model. *)
Definition izhikevich_defaults : list float :=
  value <$> izhikevich_rs.parameters.

Definition hh_defaults : list float := value <$> hodgkin_huxley.parameters.

(** The global time step of the entry script. *)
Definition dt : float := 0.02.

(** A parameter vector whose threshold lies above the spike marker:
    [I = 2000, tau = 20, Vth = 5, El = -70]. *)
Definition high_threshold : list float := [2000; 20; 5; -70].

(** [{ x: 4.9, t: 0 }], just below that threshold. *)
Definition below_high_threshold : State :=
  <["x" := 4.9]> (<["t" := 0]> ∅).

(** [{ x: -40, t: 1 }], a voltage above the default threshold. *)
Definition above_threshold : State :=
  <["x" := -40]> (<["t" := 1]> ∅).

(** [{ x: 35, y: -10, t: 2 }], a relaxation-oscillator state past the
    spike threshold. *)
Definition past_spike : State :=
  <["x" := 35]> (<["y" := -10]> (<["t" := 2]> ∅)).

(** [{ x: 29.9, y: 100, t: 2 }], a relaxation-oscillator state about to
    cross the spike threshold with a large recovery variable. *)
Definition before_spike : State :=
  <["x" := 29.9]> (<["y" := 100]> (<["t" := 2]> ∅)).

(** Conductance-based states at the two singular voltages. *)
Definition at_minus_40 : State :=
  <["x" := -40]> (<["y" := 0.05]> (<["z" := 0.6]> (<["t" := 0]> ∅))).

Definition near_minus_55 : State :=
  <["x" := -55.000004]> (<["y" := 0.05]> (<["z" := 0.6]> (<["t" := 0]> ∅))).

End Inputs.

(** The state after [k] steps of the conductance-based model from its
    declared initial state. *)
Definition hh_run (exp : float -> float) (params : list float) (dt : float)
    (k : nat) : State :=
  Nat.iter k (fun st => hodgkin_huxley.simulate exp params st dt)
    hodgkin_huxley.initialState.

(** ** Runs of a model and of the simulator *)

(** The sample [[state.t, state.x]] pushed for a state. *)
Definition sample (st : State) : Simulator.Sample := (st !! "t", st !! "x").

(** The state after [n] successive steps of a model from [st], and the
    states visited on the way, in order. *)
Fixpoint advance (system : System) (params : list float) (dt : float)
    (n : nat) (st : State) : State :=
  match n with
  | O => st
  | S n' => advance system params dt n' (simulate system params st dt)
  end.

Fixpoint steps (system : System) (params : list float) (dt : float)
    (n : nat) (st : State) : list State :=
  match n with
  | O => []
  | S n' =>
      let st' := simulate system params st dt in
      st' :: steps system params dt n' st'
  end.

(** [if (data.length > 5000) data.splice(0, k)] as a function of the
    buffer. *)
Definition evict (k : nat) (data : list Simulator.Sample)
  : list Simulator.Sample :=
  if bool_decide (5000 < length data) then drop k data else data.

(** The running application: the entry script's simulator once the
    [start()] scheduled by [init()] has run. *)
Definition running_app (exp : float -> float) : Simulator.t :=
  fst (Simulator.start (app exp)).

(** The same application constructed with a negative time step,
    [{ defaultSystem: 'lif', dt: -0.02 }], and started. *)
Definition backwards_app (exp : float -> float) : Simulator.t :=
  fst (Simulator.start
         (fst (Simulator.create (NEURON_MODELS exp)
                 {| Simulator.opt_dt := Some (-0.02)%float;
                    Simulator.opt_defaultSystem := Some "lif" |}))).

(** ** The page's events *)

(** What the page delivers to a simulator: a timer set by [init()] or by
    the listener of the model select fires and calls [start()]; an
    animation frame fires and calls [animate()]; a click on one of the two
    buttons calls [reset()] or [restart()]; a change of the model select
    calls its listener with the selected value; and the user moves the
    slider of index [i] to the value [v]. *)
Inductive Event : Type :=
| TimerStart
| Frame
| ClickReset
| ClickRestart
| SelectSystem (key : string)
| SlideTo (i : nat) (v : float).

(** The page stores the new value of a slider; an index past the last
    slider names no element. *)
Definition slideTo (i : nat) (v : float) : Simulator.Exec unit :=
  s ← Simulator.this;
  Simulator.assign (Simulator.set_sliders (<[i := v]> (Simulator.sliders s))).

Definition dispatch (e : Event) : Simulator.Exec unit :=
  match e with
  | TimerStart => Simulator.start
  | Frame => Simulator.animate
  | ClickReset => Simulator.reset
  | ClickRestart => Simulator.restart
  | SelectSystem key => Simulator.onSystemChange key
  | SlideTo i v => slideTo i v
  end.

(** The object after a sequence of events.  An exception that escapes a
    listener or a callback is reported by the host, and the page goes on
    with the object as the failed call left it. *)
Definition run (events : list Event) (s : Simulator.t) : Simulator.t :=
  foldl (fun s e => fst (dispatch e s)) s events.

(** The buffer ends with the sample of the live state (and is empty as
    long as there is no state). *)
Definition in_sync (s : Simulator.t) : Prop :=
  match Simulator.state s with
  | Some st => last (Simulator.plotData s) = Some (sample st)
  | None => Simulator.plotData s = []
  end.

(** Both entries of a sample are numbers. *)
Definition defined_sample (p : Simulator.Sample) : bool :=
  Js.is_defined (fst p) && Js.is_defined (snd p).

(** A model whose initial state and whose every step result carry the
    two plotted components [t] and [x]. *)
Definition plots_numbers (system : System) : Prop :=
  is_Some (initialState system !! "t") /\
  is_Some (initialState system !! "x") /\
  forall (params : list float) (st : State) (dt : float),
    is_Some (simulate system params st dt !! "t") /\
    is_Some (simulate system params st dt !! "x").

(** Each sample of a buffer is [dt] later than the one before it. *)
Definition evenly_spaced (dt : float) (data : list Simulator.Sample) : Prop :=
  forall (i : nat) (a b : Simulator.Sample),
    data !! i = Some a -> data !! S i = Some b ->
    Simulator.time b = (Simulator.time a + dt)%float.

(** ** Properties of the step functions *)

(** Two numbers are different as soon as the binary64 equality test
    tells them apart (the first one not being [NaN]). *)
Lemma float_neq (a b : float) :
  PrimFloat.eqb a a = true -> PrimFloat.eqb a b = false -> a <> b.
Proof. intros Haa Hab ->. congruence. Qed.

Ltac float_neq := apply float_neq; vm_compute; reflexivity.

Lemma lif_simulate_x (params : list float) (state : State) (dt : float) :
  lif.simulate params state dt !! "x" =
  Some (let V := if Js.ge (prop state "x") (slot params 2)
                 then lif.V_reset (slot params 3) else prop state "x" in
        Spec.lif_report (slot params 2)
          (Spec.forward_euler V
             (Spec.lif_dV (slot params 0) (slot params 1) (slot params 3) V)
             dt)).
Proof. unfold lif.simulate. by rewrite lookup_insert_eq. Qed.

Lemma lif_simulate_t (params : list float) (state : State) (dt : float) :
  lif.simulate params state dt !! "t" = Some (prop state "t" + dt)%float.
Proof.
  unfold lif.simulate.
  rewrite lookup_insert_ne; [|done]. by rewrite lookup_insert_eq.
Qed.

Lemma prop_lif_simulate_x (params : list float) (state : State) (dt : float) :
  prop (lif.simulate params state dt) "x" =
  (let V := if Js.ge (prop state "x") (slot params 2)
            then lif.V_reset (slot params 3) else prop state "x" in
   Spec.lif_report (slot params 2)
     (Spec.forward_euler V
        (Spec.lif_dV (slot params 0) (slot params 1) (slot params 3) V)
        dt)).
Proof. unfold prop at 1. by rewrite lif_simulate_x. Qed.

(** C2 (as amended): the leaky integrate-and-fire step resets [V] to
    [V_reset = El - 5] when [V >= Vth] at the start of the step, then
    integrates [dV/dt = (El - V + I) / tau] by forward Euler, and reports
    the spike marker [0] when the integrated value reaches [Vth].  The
    following step starts from what was reported: after a reported spike
    it resumes from the reset value when the marker itself is at or above
    the threshold ([0 >= Vth], as for every threshold of the declared
    range) and from the marker [0] otherwise; after a step that reported no
    spike it resumes from the integrated value. *)
Theorem lif_two_phase_reset (params : list float) (state : State)
    (dt : float) :
  let I := slot params 0 in
  let tau := slot params 1 in
  let Vth := slot params 2 in
  let El := slot params 3 in
  let V := prop state "x" in
  let V0 := if Js.ge V Vth then (El - 5)%float else V in
  let newV := Spec.forward_euler V0 (Spec.lif_dV I tau El V0) dt in
  lif.simulate params state dt !! "x"
    = Some (if Js.ge newV Vth then 0%float else newV) /\
  forall dt' : float,
    lif.simulate params (lif.simulate params state dt) dt' !! "x"
    = Some (let V1 := if Js.ge newV Vth
                      then (if Js.ge 0 Vth then (El - 5)%float else 0%float)
                      else newV in
            Spec.lif_report Vth
              (Spec.forward_euler V1 (Spec.lif_dV I tau El V1) dt')).
Proof.
  intros I tau Vth El V V0 newV. split.
  - by rewrite lif_simulate_x.
  - intros dt'.
    assert (Hresume :
      (if Js.ge (Spec.lif_report Vth newV) Vth
       then (El - 5)%float else Spec.lif_report Vth newV)
      = (if Js.ge newV Vth
         then (if Js.ge 0 Vth then (El - 5)%float else 0%float)
         else newV)).
    { unfold Spec.lif_report.
      destruct (Js.ge newV Vth) eqn:Hspike; [done|by rewrite Hspike]. }
    rewrite lif_simulate_x, prop_lif_simulate_x.
    fold I tau Vth El V. unfold lif.V_reset. fold V0 newV.
    cbn zeta. by rewrite Hresume.
Qed.

(** With the default parameters a step from [V = -40] resets to [-75]
    first, and the step after it goes on from the integrated value. *)
Lemma lif_two_phase_reset_defaults :
  lif.simulate Inputs.lif_defaults Inputs.above_threshold Inputs.dt !! "x"
    = Some (-74.974000000000004)%float /\
  lif.simulate Inputs.lif_defaults
    (lif.simulate Inputs.lif_defaults Inputs.above_threshold Inputs.dt)
    Inputs.dt !! "x" = Some (-74.948025999999999)%float.
Proof.
  destruct (lif_two_phase_reset Inputs.lif_defaults
              Inputs.above_threshold Inputs.dt) as [Hnow Hnext].
  split; [exact Hnow | exact (Hnext Inputs.dt)].
Defined.

(** C2, as stated, fails when the threshold lies above the spike marker:
    with [Vth = 5] the step from [V = 4.9] integrates to a value at or
    above the threshold and reports [0], and the following step, finding
    [0 < Vth], applies no reset: it resumes from the marker [0] (and
    returns [1.93]), not from the reset value [El - 5 = -75] (which would
    give [-72.995]). *)
Lemma lif_no_reset_above_marker :
  let params := Inputs.high_threshold in
  let state := Inputs.below_high_threshold in
  let dt := Inputs.dt in
  let I := slot params 0 in
  let tau := slot params 1 in
  let Vth := slot params 2 in
  let El := slot params 3 in
  let V := prop state "x" in
  let newV := Spec.forward_euler V (Spec.lif_dV I tau El V) dt in
  Js.ge V Vth = false /\
  Js.ge newV Vth = true /\
  lif.simulate params state dt !! "x" = Some 0%float /\
  lif.simulate params (lif.simulate params state dt) dt !! "x"
    = Some (Spec.lif_report Vth
              (Spec.forward_euler 0 (Spec.lif_dV I tau El 0) dt)) /\
  lif.simulate params (lif.simulate params state dt) dt !! "x"
    <> Some (Spec.lif_report Vth
               (Spec.forward_euler (El - 5)
                  (Spec.lif_dV I tau El (El - 5)) dt))%float.
Proof.
  repeat split; try (vm_compute; reflexivity).
  intros H. apply (f_equal Js.ToNumber) in H. vm_compute in H.
  revert H. float_neq.
Qed.

(** C10: the reset potential of the leaky integrate-and-fire model is not
    a parameter of its own: [V_reset] is [El - 5] for every parameter
    vector, so a step that starts at or above the threshold integrates
    from [El - 5], exactly as a step started at [V = El - 5] does. *)
Theorem lif_reset_is_El_minus_5 (params : list float) (state : State)
    (dt : float)
    (Hreached : Js.ge (prop state "x") (slot params 2) = true) :
  let I := slot params 0 in
  let tau := slot params 1 in
  let Vth := slot params 2 in
  let El := slot params 3 in
  lif.V_reset El = (El - 5)%float /\
  lif.simulate params state dt !! "x"
    = Some (Spec.lif_report Vth
              (Spec.forward_euler (El - 5)
                 (Spec.lif_dV I tau El (El - 5)) dt))%float /\
  lif.simulate params state dt
    = lif.simulate params (<["x" := (El - 5)%float]> state) dt.
Proof.
  intros I tau Vth El. split; [reflexivity|]. split.
  - rewrite lif_simulate_x. fold Vth in Hreached.
    fold I tau Vth El. by rewrite Hreached.
  - unfold lif.simulate, prop.
    rewrite lookup_insert_eq, (lookup_insert_ne _ "x" "t") by done.
    cbn [Js.ToNumber]. fold (prop state "x") I tau Vth El.
    fold Vth in Hreached. rewrite Hreached. unfold lif.V_reset.
    by destruct (Js.ge (El - 5) Vth).
Qed.

Lemma lif_reset_is_El_minus_5_witness :
  Js.ge (prop Inputs.above_threshold "x") (slot Inputs.lif_defaults 2) = true /\
  lif.V_reset (slot Inputs.lif_defaults 3) = (-75)%float /\
  lif.simulate Inputs.lif_defaults Inputs.above_threshold Inputs.dt !! "x"
    = Some (-74.974000000000004)%float.
Proof.
  split; [vm_compute; reflexivity|].
  destruct (lif_reset_is_El_minus_5 Inputs.lif_defaults
              Inputs.above_threshold Inputs.dt eq_refl) as (Hreset & Hx & _).
  split; [exact Hreset | exact Hx].
Defined.

(** C7: with [I = 21, tau = 20, Vth = -50, El = -70] and [dt = 0.02], one
    step of the leaky integrate-and-fire model from [V = -70] applies no
    reset and no clamp and returns
    [-70 + 0.02 * ((-70 - (-70) + 21 * 1) / 20)], the binary64 number
    nearest to [-69.979]. *)
Theorem lif_first_step (state : State)
    (Hstart : state !! "x" = Some (-70)%float) :
  let params := [21; 20; -50; -70]%float in
  let newV := (-70 + 0.02 * ((-70 - (-70) + 21 * 1) / 20))%float in
  Js.ge (prop state "x") (slot params 2) = false /\
  Js.ge newV (slot params 2) = false /\
  lif.simulate params state 0.02 !! "x" = Some newV /\
  newV = (-69.979)%float /\
  Js.lt (abs (newV - (-70 + 0.021))) 1e-13 = true.
Proof.
  intros params newV. unfold prop. rewrite lif_simulate_x.
  unfold prop. rewrite Hstart.
  repeat split; vm_compute; reflexivity.
Qed.

Lemma lif_first_step_witness :
  lif.initialState !! "x" = Some (-70)%float /\
  lif.simulate Inputs.lif_defaults lif.initialState Inputs.dt !! "x"
    = Some (-69.979)%float.
Proof.
  split; [vm_compute; reflexivity|].
  destruct (lif_first_step lif.initialState eq_refl) as (_ & _ & Hx & Hv & _).
  rewrite <- Hv. exact Hx.
Defined.

(** C8: the state returned by the leaky integrate-and-fire step has
    exactly the components [x] and [t]; whatever else the input state
    carried ([y], [z], a leftover [n]) is absent from it. *)
Theorem lif_result_components (params : list float) (state : State)
    (dt : float) :
  dom (lif.simulate params state dt) = ({["x"; "t"]} : gset string) /\
  is_Some (lif.simulate params state dt !! "x") /\
  is_Some (lif.simulate params state dt !! "t") /\
  lif.simulate params state dt !! "y" = None /\
  lif.simulate params state dt !! "z" = None /\
  lif.simulate params state dt !! "n" = None.
Proof.
  assert (Hdom : dom (lif.simulate params state dt)
                 = ({["x"; "t"]} : gset string)).
  { unfold lif.simulate. rewrite !dom_insert_L, dom_empty_L. set_solver. }
  split; [exact Hdom|].
  rewrite lif_simulate_x, lif_simulate_t.
  repeat split; try (eexists; reflexivity);
    apply not_elem_of_dom; rewrite Hdom; set_solver.
Qed.

(** C4: the relaxation-oscillator step applies the reset [v <- c],
    [u <- u + d] before the derivatives when [v >= 30] at the start of the
    step, integrates both variables by one forward-Euler step, and returns
    [v] clamped to [30] and [u] as integrated. *)
Theorem izhikevich_step (params : list float) (state : State) (dt : float) :
  let I := slot params 0 in
  let a := slot params 1 in
  let b := slot params 2 in
  let c := slot params 3 in
  let d := slot params 4 in
  let v := prop state "x" in
  let u := prop state "y" in
  let v0 := if Js.ge v 30 then c else v in
  let u0 := if Js.ge v 30 then (u + d)%float else u in
  let newV := Spec.forward_euler v0 (Spec.izh_dv I v0 u0) dt in
  let newU := Spec.forward_euler u0 (Spec.izh_du a b v0 u0) dt in
  izhikevich_rs.simulate params state dt !! "x"
    = Some (if Js.ge newV 30 then 30%float else newV) /\
  izhikevich_rs.simulate params state dt !! "y" = Some newU /\
  izhikevich_rs.simulate params state dt !! "t"
    = Some (prop state "t" + dt)%float /\
  dom (izhikevich_rs.simulate params state dt)
    = ({["x"; "y"; "t"]} : gset string).
Proof.
  intros I a b c d v u v0 u0 newV newU.
  unfold izhikevich_rs.simulate.
  fold I a b c d v u. subst newV newU v0 u0.
  destruct (Js.ge v 30); cbn beta iota zeta;
    rewrite !dom_insert_L, dom_empty_L;
    (split; [by rewrite lookup_insert_eq|]);
    (split; [rewrite lookup_insert_ne by done; by rewrite lookup_insert_eq|]);
    (split; [rewrite !lookup_insert_ne by done; by rewrite lookup_insert_eq|]);
    set_solver.
Qed.

(** With the default parameters: a step from [v = 35] resets to
    [(c, u + d) = (-65, -2)] and integrates from there; a step from
    [v = 29.9], [u = 100] integrates [v] past the threshold and returns it
    clamped to [30], while [u] is returned as integrated, above [30]. *)
Lemma izhikevich_step_witness :
  izhikevich_rs.simulate Inputs.izhikevich_defaults Inputs.past_spike
    Inputs.dt !! "x" = Some (-65.079999999999998)%float /\
  izhikevich_rs.simulate Inputs.izhikevich_defaults Inputs.past_spike
    Inputs.dt !! "y" = Some (-2.0044)%float /\
  izhikevich_rs.simulate Inputs.izhikevich_defaults Inputs.before_spike
    Inputs.dt !! "x" = Some 30%float /\
  izhikevich_rs.simulate Inputs.izhikevich_defaults Inputs.before_spike
    Inputs.dt !! "y" = Some 99.962391999999994%float.
Proof.
  destruct (izhikevich_step Inputs.izhikevich_defaults Inputs.past_spike
              Inputs.dt) as (Hx & Hy & _).
  destruct (izhikevich_step Inputs.izhikevich_defaults Inputs.before_spike
              Inputs.dt) as (Hx' & Hy' & _).
  split; [exact Hx|]. split; [exact Hy|]. split; [exact Hx' | exact Hy'].
Defined.

(** The components of a conductance-based step, one lookup each. *)
Lemma hh_simulate_y (exp : float -> float) (params : list float)
    (state : State) (dt : float) :
  hodgkin_huxley.simulate exp params state dt !! "y"
  = Some (let V := prop state "x" in
          let m := prop state "y" in
          m + dt * (hodgkin_huxley.alpha_m exp V * (1 - m)
                    - hodgkin_huxley.beta_m exp V * m))%float.
Proof.
  unfold hodgkin_huxley.simulate.
  rewrite lookup_insert_ne by done. by rewrite lookup_insert_eq.
Qed.

Lemma hh_simulate_n (exp : float -> float) (params : list float)
    (state : State) (dt : float) :
  hodgkin_huxley.simulate exp params state dt !! "n"
  = Some (let V := prop state "x" in
          let n := default 0.32%float (state !! "n") in
          n + dt * (hodgkin_huxley.alpha_n exp V * (1 - n)
                    - hodgkin_huxley.beta_n exp V * n))%float.
Proof.
  unfold hodgkin_huxley.simulate.
  rewrite !lookup_insert_ne by done. rewrite lookup_insert_eq.
  unfold prop. by destruct (state !! "n").
Qed.

(** C1: the two singular gating rates of the conductance-based step are
    guarded.  Within [1e-5] of [V = -40] the rate [alpha_m] is the constant
    [1.0], and within [1e-5] of [V = -55] the rate [alpha_n] is the constant
    [0.1], whatever [Math.exp] returns: the dividing expression is not
    evaluated, and the step integrates the gating variables with these
    constants.  In particular [alpha_m(-40) = 1.0] and
    [alpha_n(-55) = 0.1], neither of them [NaN]. *)
Theorem hh_singular_rates_guarded (exp : float -> float)
    (params : list float) (state : State) (dt : float) :
  let V := prop state "x" in
  let m := prop state "y" in
  let n := default 0.32%float (state !! "n") in
  (Js.lt (abs (V + 40)) 1e-5 = true ->
     hodgkin_huxley.alpha_m exp V = 1.0%float /\
     hodgkin_huxley.simulate exp params state dt !! "y"
       = Some (m + dt * (1.0 * (1 - m)
                         - hodgkin_huxley.beta_m exp V * m))%float) /\
  (Js.lt (abs (V + 55)) 1e-5 = true ->
     hodgkin_huxley.alpha_n exp V = 0.1%float /\
     hodgkin_huxley.simulate exp params state dt !! "n"
       = Some (n + dt * (0.1 * (1 - n)
                         - hodgkin_huxley.beta_n exp V * n))%float) /\
  hodgkin_huxley.alpha_m exp (-40) = 1.0%float /\
  hodgkin_huxley.alpha_n exp (-55) = 0.1%float /\
  is_nan (hodgkin_huxley.alpha_m exp (-40)) = false /\
  is_nan (hodgkin_huxley.alpha_n exp (-55)) = false.
Proof.
  intros V m n. split; [|split].
  - intros Hnear.
    assert (Hrate : hodgkin_huxley.alpha_m exp V = 1.0%float)
      by (unfold hodgkin_huxley.alpha_m; by rewrite Hnear).
    split; [exact Hrate|].
    rewrite hh_simulate_y. cbn zeta. fold V m. by rewrite Hrate.
  - intros Hnear.
    assert (Hrate : hodgkin_huxley.alpha_n exp V = 0.1%float)
      by (unfold hodgkin_huxley.alpha_n; by rewrite Hnear).
    split; [exact Hrate|].
    rewrite hh_simulate_n. cbn zeta. fold V n. by rewrite Hrate.
  - repeat split; reflexivity.
Qed.

Lemma hh_singular_rates_guarded_witness :
  Js.lt (abs (prop Inputs.at_minus_40 "x" + 40)) 1e-5 = true /\
  Js.lt (abs (prop Inputs.near_minus_55 "x" + 55)) 1e-5 = true /\
  hodgkin_huxley.alpha_m Js.exp_ref (prop Inputs.at_minus_40 "x")
    = 1.0%float /\
  hodgkin_huxley.alpha_n Js.exp_ref (prop Inputs.near_minus_55 "x")
    = 0.1%float.
Proof.
  split; [vm_compute; reflexivity|].
  split; [vm_compute; reflexivity|].
  split.
  - exact (proj1 (proj1 (hh_singular_rates_guarded Js.exp_ref
             Inputs.hh_defaults Inputs.at_minus_40 Inputs.dt) eq_refl)).
  - exact (proj1 (proj1 (proj2 (hh_singular_rates_guarded Js.exp_ref
             Inputs.hh_defaults Inputs.near_minus_55 Inputs.dt)) eq_refl)).
Defined.

(** Without the guard the dividing expression of [alpha_m] is [0 / 0] at
    [V = -40], as soon as [exp(0)] is [1]. *)
Lemma hh_unguarded_alpha_m_is_nan (exp : float -> float) :
  exp (- (-40 + 40) / 10)%float = 1%float ->
  is_nan ((0.1 * (-40 + 40)) / (1 - exp ((- (-40 + 40)) / 10)))%float = true.
Proof. intros ->. reflexivity. Qed.

(** C9: the declared initial state of the conductance-based model has no
    [n] component; a step from a state without [n] is the step from that
    state with [n = 0.32]; a step from a state with [n] uses that [n]; and
    every returned state has an [n] component.  So along a run from the
    initial state, [n] is missing before the first step only. *)
Theorem hh_default_n (exp : float -> float) (params : list float)
    (state : State) (dt : float) :
  hodgkin_huxley.initialState !! "n" = None /\
  (state !! "n" = None ->
     hodgkin_huxley.simulate exp params state dt
     = hodgkin_huxley.simulate exp params (<["n" := 0.32%float]> state) dt) /\
  (forall n : float, state !! "n" = Some n ->
     hodgkin_huxley.simulate exp params state dt !! "n"
     = Some (let V := prop state "x" in
             n + dt * (hodgkin_huxley.alpha_n exp V * (1 - n)
                       - hodgkin_huxley.beta_n exp V * n))%float) /\
  is_Some (hodgkin_huxley.simulate exp params state dt !! "n") /\
  (forall k : nat, hh_run exp params dt k !! "n" = None <-> k = 0%nat).
Proof.
  split; [reflexivity|]. split; [|split; [|split]].
  - intros Hmissing. unfold hodgkin_huxley.simulate, prop.
    rewrite Hmissing, lookup_insert_eq.
    by rewrite !(lookup_insert_ne _ "n") by done.
  - intros n Hn. rewrite hh_simulate_n. by rewrite Hn.
  - rewrite hh_simulate_n. eexists; reflexivity.
  - intros k. destruct k as [|k]; [done|].
    unfold hh_run. rewrite Nat.iter_succ, hh_simulate_n. done.
Qed.

Lemma hh_default_n_witness :
  hodgkin_huxley.initialState !! "n" = None /\
  hodgkin_huxley.simulate Js.exp_ref Inputs.hh_defaults
    hodgkin_huxley.initialState Inputs.dt
  = hodgkin_huxley.simulate Js.exp_ref Inputs.hh_defaults
      (<["n" := 0.32%float]> hodgkin_huxley.initialState) Inputs.dt.
Proof.
  split; [reflexivity|].
  exact (proj1 (proj2 (hh_default_n Js.exp_ref Inputs.hh_defaults
           hodgkin_huxley.initialState Inputs.dt)) eq_refl).
Defined.

(** ** Properties of the simulator *)

Section SimulatorFacts.
Import Simulator.

Lemma animate_loop_run (system : System) (params : list float) (dt : float)
    (n : nat) (s : Simulator.t) (st : State) :
  state s = Some st ->
  animate_loop n system params dt s =
  (mk (systems s) (options_dt s) (options_defaultSystem s)
      (currentSystemKey s) (animationId s)
      (plotData s ++ (sample <$> steps system params dt n st))
      (Some (advance system params dt n st)) (sliders s) (nextFrame s),
   inr tt).
Proof.
  revert s st. induction n as [|n IH]; intros s st Hst.
  - destruct s; cbn in *. subst. by rewrite app_nil_r.
  - destruct s as [sys d ds key aid data sta sl nf]; cbn in Hst; subst sta.
    cbn [animate_loop]. unfold mbind at 1, Exec_bind.
    unfold animate_step, mbind, Exec_bind, this, assign; cbn.
    erewrite IH by reflexivity; cbn.
    by rewrite <- app_assoc.
Qed.

Lemma animate_run (s : Simulator.t) (h : positive) (system : System)
    (st : State) :
  animationId s = Some h ->
  getCurrentSystem s = Some system ->
  state s = Some st ->
  animate s =
  (mk (systems s) (options_dt s) (options_defaultSystem s)
      (currentSystemKey s) (Some (nextFrame s))
      (evict (stepsPerFrame system)
         (plotData s ++
          (sample <$> steps system (sliders s) (options_dt s)
                        (stepsPerFrame system) st)))
      (Some (advance system (sliders s) (options_dt s)
               (stepsPerFrame system) st))
      (sliders s) (Pos.succ (nextFrame s)),
   inr tt).
Proof.
  intros Hrun Hsys Hst.
  unfold animate, mbind, Exec_bind, this. rewrite Hrun, Hsys.
  unfold getParameters. rewrite (animate_loop_run _ _ _ _ _ _ Hst).
  unfold evict. cbn.
  by destruct (bool_decide _).
Qed.

Lemma steps_length (system : System) (params : list float) (dt : float)
    (n : nat) (st : State) :
  length (steps system params dt n st) = n.
Proof.
  revert st. induction n as [|n IH]; intros st; cbn; [done|].
  by rewrite IH.
Qed.

Lemma stepsPerFrame_pos (system : System) :
  exists k : nat, stepsPerFrame system = S k.
Proof. unfold stepsPerFrame. destruct (Js.includes _ _); eauto. Qed.

Lemma animate_loop_null (system : System) (params : list float)
    (dt : float) (k : nat) (s : Simulator.t) :
  state s = None ->
  animate_loop (S k) system params dt s = (s, inl (TypeError "state.x")).
Proof.
  intros Hnull. cbn [animate_loop].
  unfold mbind, Exec_bind, animate_step.
  unfold mbind, Exec_bind, this. by rewrite Hnull.
Qed.

(** A frame that cannot run (stopped loop, unknown model, no state) leaves
    the buffer as it is. *)
Lemma animate_idle (s : Simulator.t) :
  animationId s = None \/ getCurrentSystem s = None \/ state s = None ->
  plotData (fst (animate s)) = plotData s.
Proof.
  intros [Hstopped|[Hunknown|Hnull]]; unfold animate, mbind, Exec_bind, this.
  - by rewrite Hstopped.
  - destruct (animationId s) as [h|]; [|done]. by rewrite Hunknown.
  - destruct (animationId s) as [h|]; [|done].
    destruct (getCurrentSystem s) as [system|]; [|done].
    destruct (stepsPerFrame_pos system) as [k ->].
    by rewrite animate_loop_null.
Qed.

Lemma evict_length (k : nat) (data : list Sample) :
  length data <= 5000 + k -> length (evict k data) <= 5000.
Proof.
  intros Hlen. unfold evict. case_bool_decide; [|lia].
  rewrite length_drop. lia.
Qed.

Lemma animate_capped (s : Simulator.t) :
  length (plotData s) <= 5000 ->
  length (plotData (fst (animate s))) <= 5000.
Proof.
  intros Hcap.
  destruct (animationId s) as [h|] eqn:Hrun;
    [|rewrite animate_idle; auto].
  destruct (getCurrentSystem s) as [system|] eqn:Hsys;
    [|rewrite animate_idle; auto].
  destruct (state s) as [st|] eqn:Hst;
    [|rewrite animate_idle; auto].
  rewrite (animate_run s h system st Hrun Hsys Hst). cbn.
  apply evict_length.
  rewrite length_app, length_fmap, steps_length. lia.
Qed.

Lemma frames_capped (n : nat) (s : Simulator.t) :
  length (plotData s) <= 5000 ->
  length (plotData (frames n s)) <= 5000.
Proof.
  revert s. induction n as [|n IH]; intros s Hcap; cbn; [done|].
  apply IH, animate_capped, Hcap.
Qed.

Lemma time_ordered_tail (a : Sample) (l : list Sample) :
  time_ordered (a :: l) = true -> time_ordered l = true.
Proof.
  destruct l as [|b l]; [done|]. cbn.
  intros [_ Hrest]%andb_prop. exact Hrest.
Qed.

Lemma time_ordered_drop (k : nat) (l : list Sample) :
  time_ordered l = true -> time_ordered (drop k l) = true.
Proof.
  revert l. induction k as [|k IH]; intros l Hl; [by rewrite drop_0|].
  destruct l as [|a l]; [done|].
  cbn [drop]. by eapply IH, time_ordered_tail.
Qed.

(** C3 (as amended): at the end of every frame the trajectory buffer is
    within [MAX_SAMPLES = 5000].  A frame appends one sample per step,
    [stepsPerFrame] of them, and tests the length once, after the last of
    them; when the appended sequence is longer than the cap, exactly
    [stepsPerFrame] samples are removed from the front, so what remains is
    a suffix of the appended sequence and keeps its non-decreasing sample
    times; and after any number of frames the length is at most the
    cap. *)
Theorem plotData_capped (s : Simulator.t) (h : positive) (system : System)
    (st : State)
    (Hcap : length (plotData s) <= 5000)
    (Hrun : animationId s = Some h)
    (Hsys : getCurrentSystem s = Some system)
    (Hst : state s = Some st) :
  let k := stepsPerFrame system in
  let appended :=
    plotData s ++ (sample <$> steps system (sliders s) (options_dt s) k st) in
  let s' := fst (animate s) in
  length appended = length (plotData s) + k /\
  plotData s' = (if bool_decide (5000 < length appended)
                 then drop k appended else appended) /\
  length (plotData s') <= 5000 /\
  (time_ordered appended = true -> time_ordered (plotData s') = true) /\
  (forall n : nat, length (plotData (frames n s)) <= 5000).
Proof.
  intros k appended s'.
  assert (Hs' : plotData s' = evict k appended)
    by (subst s'; by rewrite (animate_run s h system st Hrun Hsys Hst)).
  split; [|split; [|split; [|split]]].
  - subst appended. by rewrite length_app, length_fmap, steps_length.
  - rewrite Hs'. reflexivity.
  - by apply animate_capped.
  - intros Hordered. rewrite Hs'. unfold evict.
    case_bool_decide; [by apply time_ordered_drop|done].
  - intros n. by apply frames_capped.
Qed.

Lemma plotData_capped_witness :
  let s := running_app Js.exp_ref in
  length (plotData s) <= 5000 /\
  animationId s = Some 1%positive /\
  getCurrentSystem s = Some lif_model /\
  state s = Some lif.initialState /\
  length (plotData (fst (animate s))) <= 5000 /\
  time_ordered (plotData (fst (animate s))) = true /\
  length (plotData (frames 3 s)) <= 5000.
Proof.
  intros s.
  assert (Hcap : length (plotData s) <= 5000) by (vm_compute; lia).
  destruct (plotData_capped s 1%positive lif_model lif.initialState
              Hcap eq_refl eq_refl eq_refl)
    as (_ & _ & Hlen & Hordered & Hframes).
  split; [exact Hcap|]. do 3 (split; [reflexivity|]).
  split; [exact Hlen|]. split.
  - apply Hordered. vm_compute. reflexivity.
  - apply Hframes.
Defined.

(** The cap is reached, and eviction then holds the length: from the
    restart of the entry script's application the buffer has 4991 samples
    after 499 frames and still 4991 after 500 and 501, in time order. *)
Lemma plotData_saturates :
  let s := running_app Js.exp_ref in
  length (plotData (frames 499 s)) = 4991 /\
  length (plotData (frames 500 s)) = 4991 /\
  length (plotData (frames 501 s)) = 4991 /\
  time_ordered (plotData (frames 501 s)) = true.
Proof. vm_compute. repeat split; reflexivity. Qed.

(** C3, as stated, fails between the appends of one frame: in frame 500
    of the running application the buffer holds 4991 samples, the length
    test comes only after the loop, and the tenth append of the frame
    leaves 5001 samples in the buffer, one more than the cap. *)
Lemma plotData_exceeds_cap_within_frame :
  let s := frames 499 (running_app Js.exp_ref) in
  let pushed :=
    fst (animate_loop 10 lif_model (getParameters s) (options_dt s) s) in
  is_Some (animationId s) /\
  getCurrentSystem s = Some lif_model /\
  stepsPerFrame lif_model = 10 /\
  length (plotData s) = 4991 /\
  length (plotData pushed) = 5000 + 1 /\
  ~ length (plotData pushed) <= 5000.
Proof.
  intros s pushed.
  assert (Hlen : length (plotData pushed) = 5000 + 1)
    by (vm_compute; reflexivity).
  split; [vm_compute; eexists; reflexivity|].
  split; [vm_compute; reflexivity|].
  split; [reflexivity|].
  split; [vm_compute; reflexivity|].
  split; [exact Hlen|]. rewrite Hlen. lia.
Qed.

(** Inside such a frame the ten pushes take the buffer to 5001 samples
    before the length test removes ten of them. *)
Lemma plotData_before_splice :
  let s := frames 499 (running_app Js.exp_ref) in
  length (plotData (fst (animate_loop 10 lif_model (getParameters s)
                           (options_dt s) s))) = 5000 + 1.
Proof. vm_compute. reflexivity. Qed.

(** C5 (as amended): the loop does not validate the time step.  For
    every value of [dt], positive or not, each iteration replaces the live
    state by the result of the model's step function, and a frame returns
    normally with the state advanced by [stepsPerFrame] steps; no error is
    raised on account of [dt]. *)
Theorem animate_takes_any_dt (s : Simulator.t) (h : positive)
    (system : System) (st : State)
    (Hrun : animationId s = Some h)
    (Hsys : getCurrentSystem s = Some system)
    (Hst : state s = Some st) :
  (forall (params : list float) (dt : float),
     snd (animate_step system params dt s) = inr tt /\
     state (fst (animate_step system params dt s))
       = Some (simulate system params st dt)) /\
  snd (animate s) = inr tt /\
  state (fst (animate s))
    = Some (advance system (getParameters s) (options_dt s)
              (stepsPerFrame system) st).
Proof.
  split.
  - intros params dt. unfold animate_step, mbind, Exec_bind, this.
    by rewrite Hst.
  - by rewrite (animate_run s h system st Hrun Hsys Hst).
Qed.

Lemma animate_takes_any_dt_witness :
  let s := backwards_app Js.exp_ref in
  animationId s = Some 1%positive /\
  getCurrentSystem s = Some lif_model /\
  state s = Some lif.initialState /\
  PrimFloat.leb (options_dt s) 0 = true /\
  snd (animate s) = inr tt /\
  state (fst (animate s))
    = Some (advance lif_model (getParameters s) (options_dt s) 10
              lif.initialState).
Proof.
  intros s.
  destruct (animate_takes_any_dt s 1%positive lif_model lif.initialState
              eq_refl eq_refl eq_refl) as (_ & Hok & Hstate).
  do 3 (split; [reflexivity|]).
  split; [vm_compute; reflexivity|].
  split; [exact Hok | exact Hstate].
Defined.

(** C5, as stated, fails: a simulator constructed with [dt = -0.02] runs
    its frame without any error, and the frame replaces the live state
    (its time goes from [0] to ten steps back). *)
Lemma animate_accepts_negative_dt :
  let s := backwards_app Js.exp_ref in
  PrimFloat.leb (options_dt s) 0 = true /\
  snd (animate s) = inr tt /\
  state (fst (animate s)) <> state s /\
  PrimFloat.ltb (prop (default ∅ (state (fst (animate s)))) "t") 0 = true.
Proof.
  intros s. split; [vm_compute; reflexivity|].
  split; [vm_compute; reflexivity|].
  split; [|vm_compute; reflexivity].
  intros Hsame.
  apply (f_equal (fun o => prop (default ∅ o) "t")) in Hsame.
  vm_compute in Hsame. revert Hsame. float_neq.
Qed.

Lemma onSystemChange_run (key : string) (s : Simulator.t) :
  onSystemChange key s =
  match lookup_system (systems s) key with
  | Some system =>
      (mk (systems s) (options_dt s) (options_defaultSystem s) key None
          [sample (initialState system)] (Some (initialState system))
          (value <$> parameters system) (nextFrame s),
       inr tt)
  | None =>
      (mk (systems s) (options_dt s) (options_defaultSystem s) key None
          (plotData s) (state s) (sliders s) (nextFrame s),
       inl (TypeError "system.equation"))
  end.
Proof.
  destruct s as [sys d ds cur aid data sta sl nf].
  unfold onSystemChange, stop, reset, updateUIControls, restart,
    getCurrentSystem, mbind, Exec_bind, this, assign, throw.
  unfold set_sliders, set_currentSystemKey, set_animationId, set_state,
    set_plotData, deep_copy.
  destruct aid; destruct (lookup_system sys key) eqn:Hkey;
    simpl; rewrite ?Hkey; simpl; rewrite ?Hkey; reflexivity.
Qed.

(** C6 (as amended): selecting a model sets the current model key
    without checking it against the table.  For a key of the table the
    selection succeeds and resets the live state to a copy of the selected
    model's initial state (for an initial state that the JSON copy gives
    back as it is).  For a key that names no entry of the table the
    selection fails with a [TypeError], the current key having been
    overwritten with that key, and the live state is left as it was. *)
Theorem onSystemChange_resets (key : string) (s : Simulator.t) :
  let r := onSystemChange key s in
  currentSystemKey (fst r) = key /\
  match lookup_system (systems s) key with
  | Some system =>
      snd r = inr tt /\
      (json_safe_state (initialState system) = true ->
       state (fst r) = Some (initialState system))
  | None =>
      (exists what : string, snd r = inl (TypeError what)) /\
      state (fst r) = state s
  end.
Proof.
  cbn zeta. rewrite onSystemChange_run.
  destruct (lookup_system (systems s) key); simpl; eauto.
Qed.

Lemma onSystemChange_resets_witness :
  let s := fst (animate (running_app Js.exp_ref)) in
  lookup_system (systems s) "izhikevich_rs" = Some izhikevich_rs_model /\
  json_safe_state (initialState izhikevich_rs_model) = true /\
  currentSystemKey (fst (onSystemChange "izhikevich_rs" s))
  = "izhikevich_rs" /\
  state (fst (onSystemChange "izhikevich_rs" s))
  = Some izhikevich_rs.initialState.
Proof.
  intros s.
  assert (Hsafe : json_safe_state (initialState izhikevich_rs_model) = true)
    by (vm_compute; reflexivity).
  destruct (onSystemChange_resets "izhikevich_rs" s) as (Hkey & _ & Hstate).
  split; [reflexivity|]. split; [exact Hsafe|].
  split; [exact Hkey | exact (Hstate Hsafe)].
Defined.

(** C6, as stated, fails on both counts.  After one frame of the running
    application, selecting the registered model [izhikevich_rs] replaces
    the live state; and selecting the unregistered key [nope] raises a
    [TypeError] and leaves [nope] as the current model key in place of
    [lif]. *)
Lemma onSystemChange_no_validation :
  let s := fst (animate (running_app Js.exp_ref)) in
  currentSystemKey s = "lif" /\
  lookup_system (systems s) "izhikevich_rs" = Some izhikevich_rs_model /\
  snd (onSystemChange "izhikevich_rs" s) = inr tt /\
  state (fst (onSystemChange "izhikevich_rs" s)) <> state s /\
  lookup_system (systems s) "nope" = None /\
  snd (onSystemChange "nope" s) = inl (TypeError "system.equation") /\
  currentSystemKey (fst (onSystemChange "nope" s)) = "nope" /\
  currentSystemKey (fst (onSystemChange "nope" s)) <> currentSystemKey s.
Proof.
  intros s. do 3 (split; [reflexivity|]).
  split.
  { intros Hsame.
    apply (f_equal (fun o => prop (default ∅ o) "t")) in Hsame.
    vm_compute in Hsame. revert Hsame. float_neq. }
  do 3 (split; [reflexivity|]).
  vm_compute. discriminate.
Qed.

End SimulatorFacts.

(** ** The methods of the simulator, one equation each *)

Section SimulatorMethods.
Import Simulator.

Lemma start_run (s : Simulator.t) :
  start s =
  (match animationId s with
   | Some _ => s
   | None =>
       mk (systems s) (options_dt s) (options_defaultSystem s)
          (currentSystemKey s) (Some (nextFrame s)) (plotData s) (state s)
          (sliders s) (Pos.succ (nextFrame s))
   end, inr tt).
Proof. destruct s as [? ? ? ? [h|] ? ? ? ?]; reflexivity. Qed.

Lemma stop_run (s : Simulator.t) :
  stop s =
  (mk (systems s) (options_dt s) (options_defaultSystem s)
      (currentSystemKey s) None (plotData s) (state s) (sliders s)
      (nextFrame s), inr tt).
Proof. destruct s as [? ? ? ? [h|] ? ? ? ?]; reflexivity. Qed.

Lemma restart_run (s : Simulator.t) :
  restart s =
  match getCurrentSystem s with
  | Some system =>
      (mk (systems s) (options_dt s) (options_defaultSystem s)
          (currentSystemKey s) (animationId s)
          [sample (initialState system)] (Some (initialState system))
          (sliders s) (nextFrame s), inr tt)
  | None => (s, inl (TypeError "system.initialState"))
  end.
Proof.
  unfold restart, mbind, Exec_bind, this.
  destruct (getCurrentSystem s); reflexivity.
Qed.

Lemma reset_run (s : Simulator.t) :
  reset s =
  match getCurrentSystem s with
  | Some system =>
      (mk (systems s) (options_dt s) (options_defaultSystem s)
          (currentSystemKey s) (animationId s)
          [sample (initialState system)] (Some (initialState system))
          (value <$> parameters system) (nextFrame s), inr tt)
  | None => (s, inl (TypeError "system.equation"))
  end.
Proof.
  unfold reset, updateUIControls, mbind at 1, Exec_bind at 1.
  unfold mbind, Exec_bind, this.
  destruct (getCurrentSystem s) as [system|] eqn:Hsys; [|reflexivity].
  unfold assign. rewrite restart_run.
  unfold getCurrentSystem in *. simpl. by rewrite Hsys.
Qed.

(** The three ways a frame does not run. *)
Lemma animate_stopped (s : Simulator.t) :
  animationId s = None -> animate s = (s, inr tt).
Proof. intros Hstopped. unfold animate, mbind, Exec_bind, this. by rewrite Hstopped. Qed.

Lemma animate_unknown (s : Simulator.t) (h : positive) :
  animationId s = Some h -> getCurrentSystem s = None ->
  animate s = (s, inl (TypeError "system.name")).
Proof.
  intros Hrun Hsys. unfold animate, mbind, Exec_bind, this.
  by rewrite Hrun, Hsys.
Qed.

Lemma animate_null (s : Simulator.t) (h : positive) (system : System) :
  animationId s = Some h -> getCurrentSystem s = Some system ->
  state s = None ->
  animate s = (s, inl (TypeError "state.x")).
Proof.
  intros Hrun Hsys Hnull. unfold animate, mbind, Exec_bind, this.
  rewrite Hrun, Hsys.
  destruct (stepsPerFrame_pos system) as [k ->].
  by rewrite animate_loop_null.
Qed.

End SimulatorMethods.

(** ** Starting, stopping, restarting *)

Section Lifecycle.
Import Simulator.

(** X1: [start()] sets the loop running and is idempotent: a second call
    changes nothing, and no call touches the state, the buffer, the
    sliders or the current model. *)
Theorem start_idempotent (s : Simulator.t) :
  let s1 := fst (start s) in
  is_Some (animationId s1) /\
  start s1 = (s1, inr tt) /\
  state s1 = state s /\
  plotData s1 = plotData s /\
  sliders s1 = sliders s /\
  currentSystemKey s1 = currentSystemKey s.
Proof.
  cbn zeta. rewrite start_run.
  destruct s as [sys d ds key [h|] data sta sl nf]; cbn; eauto 10.
Qed.

(** X2: once stopped, the simulator ignores animation frames: any number
    of calls of [animate()] returns normally and leaves the object as
    [stop()] left it, with the state and the buffer it had. *)
Theorem stop_ignores_frames (s : Simulator.t) (n : nat) :
  let s0 := fst (stop s) in
  animate s0 = (s0, inr tt) /\
  frames n s0 = s0 /\
  state s0 = state s /\
  plotData s0 = plotData s.
Proof.
  cbn zeta. rewrite stop_run. cbn [fst].
  set (s0 := mk _ _ _ _ _ _ _ _ _).
  assert (Hidle : animate s0 = (s0, inr tt)) by by apply animate_stopped.
  split; [exact Hidle|]. split; [|done].
  induction n as [|n IH]; [done|]. cbn [frames]. by rewrite Hidle.
Qed.



(** X4: when the table has nothing under the current model key (no own
    entry, and the key is not a name inherited from [Object.prototype]),
    [reset()], [restart()] and a frame of the started loop each throw a
    [TypeError] and leave the object exactly as it was; in particular the
    failed frame requests no further frame. *)
Theorem unknown_system_fails (s : Simulator.t)
    (Hunknown : getCurrentSystem s = None)
    (Hplain : Js.inherited (currentSystemKey s) = false) :
  let s1 := fst (start s) in
  reset s = (s, inl (TypeError "system.equation")) /\
  restart s = (s, inl (TypeError "system.initialState")) /\
  animate s1 = (s1, inl (TypeError "system.name")) /\
  frames 1 s1 = s1.
Proof.
  cbn zeta. rewrite reset_run, restart_run, Hunknown.
  do 2 (split; [reflexivity|]).
  assert (Hfail : animate (fst (start s))
                  = (fst (start s), inl (TypeError "system.name"))).
  { rewrite start_run. cbn [fst].
    destruct (animationId s) as [h|] eqn:Hrun.
    - by apply (animate_unknown s h).
    - by apply (animate_unknown _ (nextFrame s)). }
  split; [exact Hfail|]. cbn [frames]. by rewrite Hfail.
Qed.

Lemma unknown_system_fails_witness :
  let s := fst (onSystemChange "nope" (running_app Js.exp_ref)) in
  getCurrentSystem s = None /\
  Js.inherited (currentSystemKey s) = false /\
  reset s = (s, inl (TypeError "system.equation")) /\
  snd (animate (fst (start s))) = inl (TypeError "system.name").
Proof.
  intros s.
  destruct (unknown_system_fails s eq_refl eq_refl)
    as (Hreset & _ & Hframe & _).
  do 2 (split; [reflexivity|]). split; [exact Hreset|]. by rewrite Hframe.
Defined.

(** X5: the last selection wins: selecting a model of the table after
    any other selection, successful or failed, leaves the simulator exactly
    as selecting that model directly does. *)
Theorem last_selection_wins (s : Simulator.t) (k1 k2 : string)
    (system : System)
    (Hknown : lookup_system (systems s) k2 = Some system) :
  onSystemChange k2 (fst (onSystemChange k1 s)) = onSystemChange k2 s.
Proof.
  rewrite (onSystemChange_run k2 s), Hknown.
  rewrite onSystemChange_run.
  assert (Hsys : systems (fst (onSystemChange k1 s)) = systems s)
    by (rewrite onSystemChange_run; by destruct (lookup_system _ k1)).
  rewrite Hsys, Hknown.
  rewrite (onSystemChange_run k1 s).
  by destruct (lookup_system (systems s) k1).
Qed.

Lemma last_selection_wins_witness :
  let s := running_app Js.exp_ref in
  lookup_system (systems s) "izhikevich_rs" = Some izhikevich_rs_model /\
  onSystemChange "izhikevich_rs" (fst (onSystemChange "nope" s))
  = onSystemChange "izhikevich_rs" s.
Proof.
  intros s. split; [reflexivity|].
  exact (last_selection_wins s "nope" "izhikevich_rs" izhikevich_rs_model
           eq_refl).
Defined.



End Lifecycle.

(** ** Frames as batches of steps *)

Section Frames.
Import Simulator.

Lemma advance_add (system : System) (params : list float) (dt : float)
    (a b : nat) (st : State) :
  advance system params dt (a + b) st
  = advance system params dt b (advance system params dt a st).
Proof. revert st. induction a as [|a IH]; intros st; cbn; [done|]. apply IH. Qed.

Lemma advance_last (system : System) (params : list float) (dt : float)
    (k : nat) (st : State) :
  advance system params dt (S k) st
  = simulate system params (advance system params dt k st) dt.
Proof.
  replace (S k) with (k + 1) by lia. by rewrite advance_add.
Qed.

Lemma steps_add (system : System) (params : list float) (dt : float)
    (a b : nat) (st : State) :
  steps system params dt (a + b) st
  = steps system params dt a st
    ++ steps system params dt b (advance system params dt a st).
Proof.
  revert st. induction a as [|a IH]; intros st; cbn; [done|].
  by rewrite IH.
Qed.

Lemma steps_last (system : System) (params : list float) (dt : float)
    (k : nat) (st : State) :
  last (steps system params dt (S k) st)
  = Some (advance system params dt (S k) st).
Proof.
  replace (S k) with (k + 1) by lia.
  rewrite steps_add, advance_add. cbn. by rewrite last_snoc.
Qed.

(** What [n] frames of a running loop do, as long as the buffer is not
    consulted: the loop keeps running on the same model with the same
    sliders, and the state has advanced by [n * stepsPerFrame] steps. *)
Lemma frames_run (system : System) (n : nat) :
  forall (s : Simulator.t) (h : positive) (st : State),
    animationId s = Some h ->
    getCurrentSystem s = Some system ->
    state s = Some st ->
    is_Some (animationId (frames n s)) /\
    getCurrentSystem (frames n s) = Some system /\
    sliders (frames n s) = sliders s /\
    options_dt (frames n s) = options_dt s /\
    state (frames n s)
    = Some (advance system (sliders s) (options_dt s)
              (n * stepsPerFrame system) st).
Proof.
  induction n as [|n IH]; intros s h st Hrun Hsys Hst.
  - cbn. rewrite Hrun. eauto.
  - cbn [frames]. rewrite (animate_run s h system st Hrun Hsys Hst).
    cbn [fst]. set (s' := mk _ _ _ _ _ _ _ _ _).
    destruct (IH s' (nextFrame s)
                (advance system (sliders s) (options_dt s)
                   (stepsPerFrame system) st) eq_refl Hsys eq_refl)
      as (Hrun' & Hsys' & Hsl & Hdt & Hstate).
    rewrite Hsys', Hsl, Hdt, Hstate. cbn.
    by rewrite advance_add.
Qed.

(** X7: batching is transparent: [n] frames of a running loop, with the
    sliders left alone, take the state where [n * stepsPerFrame] single
    steps of the current model take it. *)
Theorem frames_are_steps (s : Simulator.t) (h : positive) (system : System)
    (st : State) (n : nat)
    (Hrun : animationId s = Some h)
    (Hsys : getCurrentSystem s = Some system)
    (Hst : state s = Some st) :
  state (frames n s)
  = Some (advance system (getParameters s) (options_dt s)
            (n * stepsPerFrame system) st).
Proof. by destruct (frames_run system n s h st Hrun Hsys Hst) as (_ & _ & _ & _ & ?). Qed.

Lemma frames_are_steps_witness :
  let s := running_app Js.exp_ref in
  animationId s = Some 1%positive /\
  getCurrentSystem s = Some lif_model /\
  state s = Some lif.initialState /\
  state (frames 3 s)
  = Some (advance lif_model (getParameters s) (options_dt s) 30
            lif.initialState).
Proof.
  intros s. do 3 (split; [reflexivity|]).
  exact (frames_are_steps s 1%positive lif_model lif.initialState 3
           eq_refl eq_refl eq_refl).
Defined.

Lemma evict_below (k : nat) (data : list Sample) :
  length data <= 5000 -> evict k data = data.
Proof. intros Hlen. unfold evict. case_bool_decide; [lia|done]. Qed.

(** X8: below the cap nothing is lost: as long as the samples of [n]
    frames fit under 5000, the buffer after them is the buffer before
    them followed by the samples of all [n * stepsPerFrame] steps, in
    order. *)
Theorem frames_append_below_cap (s : Simulator.t) (h : positive)
    (system : System) (st : State) (n : nat)
    (Hrun : animationId s = Some h)
    (Hsys : getCurrentSystem s = Some system)
    (Hst : state s = Some st)
    (Hroom : length (plotData s) + n * stepsPerFrame system <= 5000) :
  plotData (frames n s)
  = plotData s
    ++ (sample <$> steps system (getParameters s) (options_dt s)
                     (n * stepsPerFrame system) st).
Proof.
  revert s h st Hrun Hsys Hst Hroom.
  induction n as [|n IH]; intros s h st Hrun Hsys Hst Hroom.
  - cbn [frames Nat.mul steps fmap list_fmap]. by rewrite app_nil_r.
  - cbn [frames]. rewrite (animate_run s h system st Hrun Hsys Hst).
    cbn [fst]. cbn [Nat.mul] in Hroom.
    rewrite evict_below
      by (rewrite length_app, length_fmap, steps_length; lia).
    set (s' := mk _ _ _ _ _ _ _ _ _).
    rewrite (IH s' (nextFrame s)
               (advance system (sliders s) (options_dt s)
                  (stepsPerFrame system) st) eq_refl Hsys eq_refl).
    + unfold getParameters. subst s'.
      cbn [plotData sliders options_dt Nat.mul].
      by rewrite <- app_assoc, <- fmap_app, <- steps_add.
    + subst s'. cbn [plotData].
      rewrite length_app, length_fmap, steps_length. lia.
Qed.

Lemma frames_append_below_cap_witness :
  let s := running_app Js.exp_ref in
  animationId s = Some 1%positive /\
  getCurrentSystem s = Some lif_model /\
  state s = Some lif.initialState /\
  length (plotData s) + 3 * stepsPerFrame lif_model <= 5000 /\
  plotData (frames 3 s)
  = plotData s
    ++ (sample <$> steps lif_model (getParameters s) (options_dt s) 30
                     lif.initialState).
Proof.
  intros s. do 3 (split; [reflexivity|]).
  assert (Hroom : length (plotData s) + 3 * stepsPerFrame lif_model <= 5000)
    by (vm_compute; lia).
  split; [exact Hroom|].
  exact (frames_append_below_cap s 1%positive lif_model lif.initialState 3
           eq_refl eq_refl eq_refl Hroom).
Defined.

End Frames.

(** ** Invariants of the simulator under the page's events *)

Section Events.
Import Simulator.

Lemma slideTo_run (i : nat) (v : float) (s : Simulator.t) :
  slideTo i v s =
  (mk (systems s) (options_dt s) (options_defaultSystem s)
      (currentSystemKey s) (animationId s) (plotData s) (state s)
      (<[i := v]> (sliders s)) (nextFrame s), inr tt).
Proof. reflexivity. Qed.

(** What an event can do to the table, the current model, the state and
    the buffer: nothing (the current key changing only to a key that is not
    in the table), a reinitialisation from the current model, or one
    frame's batch of steps of the current model. *)
Lemma dispatch_effect (e : Event) (s : Simulator.t) :
  let s' := fst (dispatch e s) in
  systems s' = systems s /\
  ((plotData s' = plotData s /\ state s' = state s /\
    (currentSystemKey s' = currentSystemKey s \/ getCurrentSystem s' = None))
   \/ (exists system : System,
         getCurrentSystem s' = Some system /\
         plotData s' = [sample (initialState system)] /\
         state s' = Some (initialState system))
   \/ (exists (system : System) (st : State) (params : list float)
         (dt : float),
         getCurrentSystem s = Some system /\
         currentSystemKey s' = currentSystemKey s /\
         state s = Some st /\
         plotData s'
         = evict (stepsPerFrame system)
             (plotData s ++
              (sample <$> steps system params dt (stepsPerFrame system) st)) /\
         state s'
         = Some (advance system params dt (stepsPerFrame system) st))).
Proof.
  destruct e as [| | | |key|i v]; cbn [dispatch]; cbn zeta.
  - rewrite start_run. destruct (animationId s); cbn; auto 10.
  - destruct (animationId s) as [h|] eqn:Hrun;
      [|rewrite animate_stopped by done; auto 10].
    destruct (getCurrentSystem s) as [system|] eqn:Hsys;
      [|rewrite (animate_unknown s h) by done; auto 10].
    destruct (state s) as [st|] eqn:Hst;
      [|rewrite (animate_null s h system) by done; auto 10].
    rewrite (animate_run s h system st Hrun Hsys Hst). cbn.
    split; [done|]. right; right.
    exists system, st, (sliders s), (options_dt s). auto.
  - rewrite reset_run.
    destruct (getCurrentSystem s) as [system|] eqn:Hsys; cbn; [|auto 10].
    split; [done|]. right; left. exists system. auto.
  - rewrite restart_run.
    destruct (getCurrentSystem s) as [system|] eqn:Hsys; cbn; [|auto 10].
    split; [done|]. right; left. exists system. auto.
  - rewrite onSystemChange_run.
    destruct (lookup_system (systems s) key) as [system|] eqn:Hkey; cbn.
    + split; [done|]. right; left. exists system. auto.
    + split; [done|]. left. auto.
  - rewrite slideTo_run. cbn. auto 10.
Qed.

Lemma run_invariant (P : Simulator.t -> Prop) (events : list Event) :
  (forall (s : Simulator.t) (e : Event), P s -> P (fst (dispatch e s))) ->
  forall s : Simulator.t, P s -> P (run events s).
Proof.
  intros Hstep. induction events as [|e events IH]; intros s Hs; [done|].
  cbn. apply IH, Hstep, Hs.
Qed.

Lemma last_drop {A : Type} (k : nat) (l : list A) :
  k < length l -> last (drop k l) = last l.
Proof.
  intros Hk. rewrite !last_lookup, lookup_drop, length_drop.
  f_equal. lia.
Qed.

Lemma stepsPerFrame_bounds (system : System) :
  1 <= stepsPerFrame system <= 20.
Proof. unfold stepsPerFrame. destruct (Js.includes _ _); lia. Qed.

Lemma evict_last (k : nat) (data : list Sample) :
  k <= 5000 -> last (evict k data) = last data.
Proof.
  intros Hk. unfold evict. case_bool_decide; [|done].
  apply last_drop. lia.
Qed.

Lemma dispatch_capped (s : Simulator.t) (e : Event) :
  length (plotData s) <= 5000 ->
  length (plotData (fst (dispatch e s))) <= 5000.
Proof.
  intros Hcap.
  destruct (dispatch_effect e s)
    as (_ & [(-> & _)|[(system & _ & -> & _)
                     |(system & st & params & dt & _ & _ & _ & -> & _)]]).
  - done.
  - cbn. lia.
  - apply evict_length.
    rewrite length_app, length_fmap, steps_length. lia.
Qed.

Lemma dispatch_in_sync (s : Simulator.t) (e : Event) :
  in_sync s -> in_sync (fst (dispatch e s)).
Proof.
  unfold in_sync. intros Hsync.
  destruct (dispatch_effect e s)
    as (_ & [(Hdata & Hstate & _)|[(system & _ & Hdata & Hstate)
                     |(system & st & params & dt & _ & _ & _ & Hdata & Hstate)]]);
    rewrite Hstate, Hdata; [done|done|].
  destruct (stepsPerFrame_bounds system) as [Hpos Hmax].
  rewrite evict_last by lia.
  destruct (stepsPerFrame system) as [|k] eqn:Hk; [lia|].
  rewrite last_app, fmap_last, steps_last. done.
Qed.

(** X9: whatever the table, the options and the sequence of events that
    follows the construction, the buffer never holds more than 5000
    samples, and it always ends with the sample of the live state (being
    empty only while there is no state). *)
Theorem reachable_capped_in_sync (systemsMap : list (string * System))
    (options : Options) (events : list Event) :
  let s := run events (fst (create systemsMap options)) in
  length (plotData s) <= 5000 /\ in_sync s.
Proof.
  cbn zeta.
  apply (run_invariant
           (fun s => length (plotData s) <= 5000 /\ in_sync s)).
  - intros s e [Hcap Hsync].
    split; [by apply dispatch_capped|by apply dispatch_in_sync].
  - unfold create. rewrite reset_run.
    destruct (getCurrentSystem _); cbn; unfold in_sync; cbn; split; done || lia.
Qed.

Lemma dispatch_state (s : Simulator.t) (e : Event) :
  is_Some (state s) -> is_Some (state (fst (dispatch e s))).
Proof.
  intros Hst.
  destruct (dispatch_effect e s)
    as (_ & [(_ & -> & _)|[(system & _ & _ & ->)
                     |(system & st & params & dt & _ & _ & _ & _ & ->)]]);
    eauto.
Qed.

(** X10: once there is a state there always is one: no event makes the
    state null again, so after any sequence of events the plot view can be
    computed and a frame never fails on the state; it either returns or
    fails on an unknown model. *)
Theorem state_never_null (s : Simulator.t) (events : list Event)
    (Hstate : is_Some (state s)) :
  let s' := run events s in
  is_Some (state s') /\
  is_Some (updatePlotView s') /\
  (snd (animate s') = inr tt \/
   snd (animate s') = inl (TypeError "system.name")).
Proof.
  cbn zeta.
  assert (Hst : is_Some (state (run events s)))
    by (apply (run_invariant (fun s => is_Some (state s)));
        [intros; by apply dispatch_state|done]).
  split; [exact Hst|]. destruct Hst as [st Hst]. split.
  - unfold updatePlotView. rewrite Hst. eauto.
  - destruct (animationId (run events s)) as [h|] eqn:Hrun;
      [|rewrite animate_stopped by done; auto].
    destruct (getCurrentSystem (run events s)) as [system|] eqn:Hsys;
      [|rewrite (animate_unknown _ h) by done; auto].
    rewrite (animate_run _ h system st Hrun Hsys Hst). auto.
Qed.

Lemma state_never_null_witness :
  let s := running_app Js.exp_ref in
  let events := [Frame; SelectSystem "nope"; TimerStart; Frame;
                 ClickRestart; SelectSystem "hodgkin_huxley"; Frame] in
  is_Some (state s) /\
  is_Some (state (run events s)) /\
  is_Some (updatePlotView (run events s)).
Proof.
  intros s events.
  assert (Hstate : is_Some (state s)) by (eexists; reflexivity).
  destruct (state_never_null s events Hstate) as (Hst & Hview & _).
  split; [exact Hstate|]. split; [exact Hst | exact Hview].
Defined.

End Events.

(** ** The three models of the table *)

Section Models.
Import Simulator.
Local Open Scope float_scope.

Lemma lif_simulate_n (params : list float) (state : State) (dt : float) :
  lif.simulate params state dt !! "n" = None.
Proof. unfold lif.simulate. by rewrite !lookup_insert_ne by done. Qed.

Lemma izhikevich_simulate_x (params : list float) (state : State)
    (dt : float) :
  is_Some (izhikevich_rs.simulate params state dt !! "x").
Proof.
  unfold izhikevich_rs.simulate. destruct (Js.ge _ 30);
    rewrite lookup_insert_eq; eauto.
Qed.

Lemma izhikevich_simulate_clamp (params : list float) (state : State)
    (dt : float) :
  exists newV : float,
    izhikevich_rs.simulate params state dt !! "x"
    = Some (if Js.ge newV 30 then 30 else newV).
Proof.
  unfold izhikevich_rs.simulate. destruct (Js.ge _ 30);
    rewrite lookup_insert_eq; eauto.
Qed.

Lemma izhikevich_simulate_t (params : list float) (state : State)
    (dt : float) :
  izhikevich_rs.simulate params state dt !! "t"
  = Some (prop state "t" + dt).
Proof.
  unfold izhikevich_rs.simulate. destruct (Js.ge _ 30);
    rewrite !lookup_insert_ne by done; by rewrite lookup_insert_eq.
Qed.

Lemma izhikevich_simulate_n (params : list float) (state : State)
    (dt : float) :
  izhikevich_rs.simulate params state dt !! "n" = None.
Proof.
  unfold izhikevich_rs.simulate. destruct (Js.ge _ 30);
    by rewrite !lookup_insert_ne by done.
Qed.

Lemma hh_simulate_x (exp : float -> float) (params : list float)
    (state : State) (dt : float) :
  is_Some (hodgkin_huxley.simulate exp params state dt !! "x").
Proof. unfold hodgkin_huxley.simulate. rewrite lookup_insert_eq. eauto. Qed.

Lemma hh_simulate_t (exp : float -> float) (params : list float)
    (state : State) (dt : float) :
  hodgkin_huxley.simulate exp params state dt !! "t"
  = Some (prop state "t" + dt).
Proof.
  unfold hodgkin_huxley.simulate.
  rewrite !lookup_insert_ne by done. by rewrite lookup_insert_eq.
Qed.

Lemma NEURON_MODELS_lookup (exp : float -> float) (key : string)
    (system : System) :
  lookup_system (NEURON_MODELS exp) key = Some system ->
  system = lif_model \/ system = izhikevich_rs_model \/
  system = hodgkin_huxley_model exp.
Proof.
  unfold NEURON_MODELS. cbn [lookup_system].
  repeat case_match; naive_solver.
Qed.

Lemma NEURON_MODELS_plot_numbers (exp : float -> float) (key : string)
    (system : System) :
  lookup_system (NEURON_MODELS exp) key = Some system ->
  plots_numbers system.
Proof.
  intros [->|[->| ->]]%NEURON_MODELS_lookup;
    (split; [eexists; reflexivity|]); (split; [eexists; reflexivity|]);
    intros params st dt; cbn [simulate lif_model izhikevich_rs_model
                                hodgkin_huxley_model].
  - rewrite lif_simulate_x, lif_simulate_t. eauto.
  - rewrite izhikevich_simulate_t. split; [eauto|].
    apply izhikevich_simulate_x.
  - rewrite hh_simulate_t. split; [eauto|]. apply hh_simulate_x.
Qed.

(** The time component after [n] steps of a model that adds [dt] to [t]
    at each step. *)
Lemma advance_time (system : System) (params : list float) (dt : float)
    (n : nat) :
  (forall st : State,
     simulate system params st dt !! "t" = Some (prop st "t" + dt)) ->
  forall st : State,
    prop (advance system params dt n st) "t"
    = Nat.iter n (fun t => t + dt) (prop st "t").
Proof.
  intros Htick. induction n as [|n IH]; intros st; [done|].
  cbn [advance]. rewrite IH, Nat.iter_succ_r.
  unfold prop at 1. by rewrite Htick.
Qed.

(** X11: every model of the table advances the time component by exactly
    [dt] at each step, whatever the parameters and the other components
    are; after [n] steps the time is the initial time with [dt] added [n]
    times. *)
Theorem model_time_advances (exp : float -> float) (key : string)
    (system : System) (params : list float) (dt : float) (n : nat)
    (st : State)
    (Hkey : lookup_system (NEURON_MODELS exp) key = Some system) :
  simulate system params st dt !! "t" = Some (prop st "t" + dt) /\
  prop (advance system params dt n st) "t"
  = Nat.iter n (fun t => t + dt) (prop st "t").
Proof.
  assert (Htick : forall st : State,
            simulate system params st dt !! "t" = Some (prop st "t" + dt)).
  { destruct (NEURON_MODELS_lookup exp key system Hkey) as [->|[->| ->]];
      intros st'; cbn [simulate lif_model izhikevich_rs_model
                         hodgkin_huxley_model].
    - apply lif_simulate_t.
    - apply izhikevich_simulate_t.
    - apply hh_simulate_t. }
  split; [apply Htick|]. by apply advance_time.
Qed.

Lemma model_time_advances_witness :
  lookup_system (NEURON_MODELS Js.exp_ref) "hodgkin_huxley"
  = Some (hodgkin_huxley_model Js.exp_ref) /\
  prop (advance (hodgkin_huxley_model Js.exp_ref) Inputs.hh_defaults
          Inputs.dt 3 hodgkin_huxley.initialState) "t"
  = 0 + 0.02 + 0.02 + 0.02.
Proof.
  split; [reflexivity|].
  exact (proj2 (model_time_advances Js.exp_ref "hodgkin_huxley"
                  (hodgkin_huxley_model Js.exp_ref) Inputs.hh_defaults
                  Inputs.dt 3 hodgkin_huxley.initialState eq_refl)).
Defined.

(** X12: the two spiking models never report a voltage at or above their
    threshold other than the marker: the leaky integrate-and-fire step
    returns either [0] or a value that fails the test [x >= Vth], and the
    relaxation-oscillator step returns either [30] or a value that fails
    the test [x >= 30]. *)
Theorem reported_voltage_marked (params : list float) (state : State)
    (dt : float) :
  (prop (lif.simulate params state dt) "x" = 0 \/
   Js.ge (prop (lif.simulate params state dt) "x") (slot params 2) = false)
  /\
  (prop (izhikevich_rs.simulate params state dt) "x" = 30 \/
   Js.ge (prop (izhikevich_rs.simulate params state dt) "x") 30 = false).
Proof.
  split.
  - rewrite prop_lif_simulate_x. cbn zeta. unfold Spec.lif_report.
    destruct (Js.ge _ (slot params 2)) eqn:Hspike; auto.
  - destruct (izhikevich_simulate_clamp params state dt) as [newV HnewV].
    unfold prop. rewrite HnewV. cbn [Js.ToNumber].
    destruct (Js.ge newV 30) eqn:Hclamp; auto.
Qed.

(** X13: when the reset value [c] is itself below the spike threshold, a
    relaxation-oscillator step that starts at [v >= 30] is the step that
    starts from the reset pair [(c, u + d)]. *)
Theorem izhikevich_reset_equivalent (params : list float) (state : State)
    (dt : float)
    (Hspike : Js.ge (prop state "x") 30 = true)
    (Hc : Js.ge (slot params 3) 30 = false) :
  izhikevich_rs.simulate params state dt
  = izhikevich_rs.simulate params
      (<["x" := slot params 3]>
         (<["y" := prop state "y" + slot params 4]> state)) dt.
Proof.
  unfold izhikevich_rs.simulate, prop.
  rewrite lookup_insert_eq.
  rewrite (lookup_insert_ne _ "x" "y"), lookup_insert_eq by done.
  rewrite !(lookup_insert_ne _ _ "t") by done.
  cbn [Js.ToNumber]. fold (prop state "x") (prop state "y").
  by rewrite Hspike, Hc.
Qed.

Lemma izhikevich_reset_equivalent_witness :
  Js.ge (prop Inputs.past_spike "x") 30 = true /\
  Js.ge (slot Inputs.izhikevich_defaults 3) 30 = false /\
  izhikevich_rs.simulate Inputs.izhikevich_defaults Inputs.past_spike
    Inputs.dt
  = izhikevich_rs.simulate Inputs.izhikevich_defaults
      (<["x" := -65]> (<["y" := -10 + 8]> Inputs.past_spike)) Inputs.dt.
Proof.
  do 2 (split; [vm_compute; reflexivity|]).
  exact (izhikevich_reset_equivalent Inputs.izhikevich_defaults
           Inputs.past_spike Inputs.dt eq_refl eq_refl).
Defined.

End Models.

(** ** Invariants of the application on the table of models *)

Section Application.
Import Simulator.

Lemma steps_outputs (system : System) (params : list float) (dt : float)
    (n : nat) (st : State) :
  Forall (fun st' => exists st0 : State,
            st' = simulate system params st0 dt)
    (steps system params dt n st).
Proof.
  revert st. induction n as [|n IH]; intros st; cbn; [done|].
  constructor; eauto.
Qed.

Lemma defined_sample_output (system : System) (params : list float)
    (st : State) (dt : float) :
  plots_numbers system ->
  defined_sample (sample (simulate system params st dt)) = true.
Proof.
  intros (_ & _ & Hout). destruct (Hout params st dt) as [[t Ht] [x Hx]].
  unfold defined_sample, sample. cbn [fst snd]. by rewrite Ht, Hx.
Qed.

Lemma dispatch_defined (s : Simulator.t) (e : Event) :
  (forall (key : string) (system : System),
     lookup_system (systems s) key = Some system -> plots_numbers system) ->
  Forall (fun p => defined_sample p = true) (plotData s) ->
  Forall (fun p => defined_sample p = true) (plotData (fst (dispatch e s))).
Proof.
  intros Hsystems Hdata.
  destruct (dispatch_effect e s)
    as (Hsys & [(-> & _)|[(system & Hcur & -> & _)
                     |(system & st & params & dt & Hcur & _ & _ & -> & _)]]).
  - done.
  - unfold getCurrentSystem in Hcur. rewrite Hsys in Hcur.
    destruct (Hsystems _ _ Hcur) as ([t Ht] & [x Hx] & _).
    constructor; [|done]. unfold defined_sample, sample. by rewrite Ht, Hx.
  - unfold evict. assert (Hall : Forall (fun p => defined_sample p = true)
      (plotData s ++ (sample <$> steps system params dt
                                   (stepsPerFrame system) st))).
    { apply Forall_app_2; [done|]. apply Forall_fmap.
      eapply Forall_impl; [apply steps_outputs|].
      intros st' [st0 ->]. cbn. apply defined_sample_output.
      by apply (Hsystems (currentSystemKey s)). }
    case_bool_decide; [by apply Forall_drop|done].
Qed.

(** X14: the application never plots [undefined]: on the table
    [NEURON_MODELS], whatever the options and the events, both entries of
    every buffered sample are numbers. *)
Theorem samples_always_defined (exp : float -> float) (options : Options)
    (events : list Event) :
  let s := run events (fst (create (NEURON_MODELS exp) options)) in
  forallb defined_sample (plotData s) = true.
Proof.
  cbn zeta.
  set (P := fun s : Simulator.t =>
              systems s = NEURON_MODELS exp /\
              Forall (fun p => defined_sample p = true) (plotData s)).
  assert (HP : P (run events (fst (create (NEURON_MODELS exp) options)))).
  { apply run_invariant.
    - intros s e [Hsys Hdata]. split.
      + by destruct (dispatch_effect e s) as [-> _].
      + apply dispatch_defined; [|done]. rewrite Hsys.
        apply NEURON_MODELS_plot_numbers.
    - unfold create. rewrite reset_run.
      destruct (getCurrentSystem _) as [system|] eqn:Hcur; (split; [done|]);
        cbn [fst plotData]; [|done].
      destruct (NEURON_MODELS_plot_numbers exp _ _ Hcur)
        as ([t Ht] & [x Hx] & _).
      constructor; [|done]. unfold defined_sample, sample. by rewrite Ht, Hx. }
  destruct HP as [_ Hdata].
  apply forallb_forall. intros p Hp%list_elem_of_In.
  by eapply Forall_forall in Hdata.
Qed.

Lemma dispatch_no_leftover (exp : float -> float) (s : Simulator.t)
    (e : Event) :
  systems s = NEURON_MODELS exp ->
  (forall st : State, state s = Some st ->
     currentSystemKey s = "lif" \/ currentSystemKey s = "izhikevich_rs" ->
     st !! "n" = None) ->
  forall st : State, state (fst (dispatch e s)) = Some st ->
    currentSystemKey (fst (dispatch e s)) = "lif" \/
    currentSystemKey (fst (dispatch e s)) = "izhikevich_rs" ->
    st !! "n" = None.
Proof.
  intros Hreg Hinv st' Hst' Hkey'.
  destruct (dispatch_effect e s)
    as (Hsys & [(_ & Hstate & [Hkey|Hnone])|[(system & Hcur & _ & Hstate)
                     |(system & st & params & dt & Hcur & Hkey & Hst & _ & Hstate)]]).
  - apply Hinv; congruence.
  - unfold getCurrentSystem in Hnone. rewrite Hsys, Hreg in Hnone.
    by destruct Hkey' as [Hk|Hk]; rewrite Hk in Hnone.
  - unfold getCurrentSystem in Hcur. rewrite Hsys, Hreg in Hcur.
    assert (st' = initialState system) as -> by congruence.
    destruct Hkey' as [Hk|Hk]; rewrite Hk in Hcur; cbn in Hcur;
      injection Hcur as <-; reflexivity.
  - unfold getCurrentSystem in Hcur. rewrite Hreg in Hcur.
    assert (st' = advance system params dt (stepsPerFrame system) st)
      as -> by congruence.
    destruct (stepsPerFrame_pos system) as [k ->]. rewrite advance_last.
    rewrite Hkey in Hkey'.
    destruct Hkey' as [Hk|Hk]; rewrite Hk in Hcur; cbn in Hcur;
      injection Hcur as <-; cbn [simulate lif_model izhikevich_rs_model].
    + apply lif_simulate_n.
    + apply izhikevich_simulate_n.
Qed.

(** X15: no leftover gating variable: on the table [NEURON_MODELS],
    whatever the options and the events, whenever the current model is the
    leaky integrate-and-fire model or the relaxation oscillator the live
    state has no [n] component, also right after a switch from the
    conductance-based model. *)
Theorem no_leftover_n (exp : float -> float) (options : Options)
    (events : list Event) :
  let s := run events (fst (create (NEURON_MODELS exp) options)) in
  forall st : State,
    state s = Some st ->
    currentSystemKey s = "lif" \/ currentSystemKey s = "izhikevich_rs" ->
    st !! "n" = None.
Proof.
  cbn zeta.
  set (P := fun s : Simulator.t =>
              systems s = NEURON_MODELS exp /\
              forall st : State, state s = Some st ->
                currentSystemKey s = "lif" \/
                currentSystemKey s = "izhikevich_rs" ->
                st !! "n" = None).
  assert (HP : P (run events (fst (create (NEURON_MODELS exp) options)))).
  { apply run_invariant.
    - intros s e [Hsys Hinv]. split.
      + by destruct (dispatch_effect e s) as [-> _].
      + by apply (dispatch_no_leftover exp).
    - unfold create. rewrite reset_run.
      destruct (getCurrentSystem _) as [system|] eqn:Hcur; (split; [done|]);
        cbn [fst state currentSystemKey]; [|done].
      intros st [= <-] Hkey. unfold getCurrentSystem in Hcur.
      cbn [systems currentSystemKey] in Hcur.
      destruct Hkey as [Hk|Hk]; rewrite Hk in Hcur; cbn in Hcur;
        injection Hcur as <-; reflexivity. }
  by destruct HP as [_ Hinv].
Qed.

Lemma no_leftover_n_witness :
  let before := run [SelectSystem "hodgkin_huxley"; TimerStart; Frame]
                  (app Js.exp_ref) in
  let s := run [SelectSystem "lif"; TimerStart; Frame] before in
  is_Some (default ∅ (state before) !! "n") /\
  currentSystemKey s = "lif" /\
  is_Some (state s) /\
  default ∅ (state s) !! "n" = None.
Proof.
  intros before s.
  split; [vm_compute; eexists; reflexivity|].
  split; [reflexivity|].
  split; [vm_compute; eexists; reflexivity|].
  refine (no_leftover_n Js.exp_ref
            {| opt_dt := Some 0.02%float; opt_defaultSystem := Some "lif" |}
            [SelectSystem "hodgkin_huxley"; TimerStart; Frame;
             SelectSystem "lif"; TimerStart; Frame]
            (default ∅ (state s)) _ (or_introl eq_refl)).
  vm_compute. reflexivity.
Defined.

End Application.

(** ** Steps per frame *)

Section StepsPerFrame.
Import Simulator.

Lemma append_cons (c : Ascii.ascii) (a b : string) :
  String c a +:+ b = String c (a +:+ b).
Proof. reflexivity. Qed.

Lemma prefix_append (a b : string) :
  String.prefix a b = true <-> exists post : string, b = a +:+ post.
Proof.
  revert b. induction a as [|c a IH]; intros b.
  - destruct b; cbn; split; eauto.
  - destruct b as [|c' b]; cbn [String.prefix String.append].
    { split; [done|by intros [? ?]]. }
    destruct (Ascii.ascii_dec c c') as [<-|Hne].
    + rewrite IH. split; intros [post Hpost]; exists post.
      * rewrite append_cons. congruence.
      * rewrite append_cons in Hpost. congruence.
    + split; [done|]. intros [post Hpost].
      rewrite append_cons in Hpost. congruence.
Qed.

Lemma includes_append (needle hay : string) :
  Js.includes needle hay = true <->
  exists pre post : string, hay = pre +:+ needle +:+ post.
Proof.
  induction hay as [|c hay IH]; cbn [Js.includes].
  - rewrite orb_false_r, prefix_append. split.
    + intros [post Hpost]. by exists "", post.
    + intros (pre & post & Hhay). destruct pre; [by exists post|done].
  - rewrite orb_true_iff, prefix_append, IH. split.
    + intros [[post Hpost]|(pre & post & Hhay)].
      * by exists "", post.
      * exists (String c pre), post. by rewrite append_cons, Hhay.
    + intros (pre & post & Hhay). destruct pre as [|c' pre].
      * left. by exists post.
      * right. exists pre, post. rewrite append_cons in Hhay. congruence.
Qed.

(** X16: the number of steps per frame is chosen by the display name of
    the model, not by its key: it is 20 exactly when the name contains
    [Hodgkin] somewhere, and 10 for every other name. *)
Theorem stepsPerFrame_by_name (system : System) :
  (stepsPerFrame system = 20 <->
   exists pre post : string, name system = pre +:+ "Hodgkin" +:+ post) /\
  (stepsPerFrame system = 10 <->
   ~ exists pre post : string, name system = pre +:+ "Hodgkin" +:+ post).
Proof.
  rewrite <- includes_append. unfold stepsPerFrame.
  destruct (Js.includes "Hodgkin" (name system)); split; split;
    try done; try lia; intros; congruence.
Qed.

Lemma stepsPerFrame_by_name_witness :
  stepsPerFrame (hodgkin_huxley_model Js.exp_ref) = 20 /\
  stepsPerFrame lif_model = 10 /\
  stepsPerFrame {| name := "Hodgkin clone"; parameters := lif.parameters;
                   initialState := lif.initialState;
                   simulate := lif.simulate |} = 20.
Proof.
  split; [|split].
  - apply (proj1 (stepsPerFrame_by_name _)).
    exists "", "–Huxley (Biophysical)". reflexivity.
  - apply (proj2 (stepsPerFrame_by_name _)).
    intros Hin%includes_append. vm_compute in Hin. discriminate.
  - apply (proj1 (stepsPerFrame_by_name _)).
    exists "", " clone". reflexivity.
Defined.

End StepsPerFrame.

(** ** The table and the sliders *)

Section TableAndSliders.
Import Simulator.

Lemma lookup_system_keys (systemsMap : list (string * System))
    (key : string) :
  is_Some (lookup_system systemsMap key) <-> key ∈ systemsMap.*1.
Proof.
  induction systemsMap as [|[k system] rest IH]; cbn.
  - split; [by intros [? ?]|by intros ?%elem_of_nil].
  - rewrite elem_of_cons. destruct (String.eqb_spec k key) as [->|Hne].
    + split; eauto.
    + rewrite IH. cbn [fst]. split; [auto|].
      intros [Heq|Hin]; [congruence|done].
Qed.

(** X17: a selection succeeds exactly for the keys of the table.  For a
    value that is no name inherited from [Object.prototype], moreover, the
    simulator has a current model after the selection exactly when the
    value is a key of the table, and otherwise the listener throws on
    reading the missing entry. *)
Theorem selection_succeeds_iff_key (key : string) (s : Simulator.t) :
  (snd (onSystemChange key s) = inr tt <-> key ∈ (systems s).*1) /\
  (Js.inherited key = false ->
   (is_Some (getCurrentSystem (fst (onSystemChange key s)))
    <-> key ∈ (systems s).*1) /\
   (snd (onSystemChange key s) = inl (TypeError "system.equation")
    <-> key ∉ (systems s).*1)).
Proof.
  rewrite <- lookup_system_keys, onSystemChange_run.
  unfold getCurrentSystem.
  destruct (lookup_system (systems s) key) as [system|] eqn:Hkey;
    cbn [fst snd systems currentSystemKey]; rewrite Hkey.
  - split; [split; eauto|]. intros _.
    repeat split; eauto; try done. intros Hnot. by destruct Hnot.
  - split; [split; [done|by intros [? ?]]|]. intros _.
    repeat split; try done; try (by intros [? ?]).
Qed.

Lemma selection_succeeds_iff_key_witness :
  let s := running_app Js.exp_ref in
  "hodgkin_huxley" ∈ (systems s).*1 /\
  snd (onSystemChange "hodgkin_huxley" s) = inr tt /\
  Js.inherited "nope" = false /\
  ("nope" ∉ (systems s).*1) /\
  snd (onSystemChange "nope" s) = inl (TypeError "system.equation").
Proof.
  intros s.
  assert (Hin : "hodgkin_huxley" ∈ (systems s).*1)
    by (apply lookup_system_keys; eexists; reflexivity).
  assert (Hout : "nope" ∉ (systems s).*1)
    by (intros [? Hsome]%lookup_system_keys; discriminate Hsome).
  destruct (selection_succeeds_iff_key "hodgkin_huxley" s) as (Hok & _).
  destruct (selection_succeeds_iff_key "nope" s) as (_ & Hplain).
  destruct (Hplain eq_refl) as (_ & Hfail).
  split; [exact Hin|]. split; [apply Hok, Hin|].
  split; [reflexivity|].
  split; [exact Hout|]. apply Hfail, Hout.
Defined.




End TableAndSliders.

(** ** The time axis of the buffer *)

Section TimeAxis.
Import Simulator.

Lemma evenly_spaced_drop (dt : float) (k : nat) (data : list Sample) :
  evenly_spaced dt data -> evenly_spaced dt (drop k data).
Proof.
  intros Hdata i a b. rewrite !lookup_drop.
  replace (k + S i) with (S (k + i)) by lia. apply Hdata.
Qed.

Lemma evenly_spaced_join (dt : float) (l : list Sample) (x : Sample)
    (batch : list Sample) :
  evenly_spaced dt (l ++ [x]) -> evenly_spaced dt (x :: batch) ->
  evenly_spaced dt (l ++ x :: batch).
Proof.
  intros Hold Hnew i a b Ha Hb.
  destruct (decide (i < length l)) as [Hi|Hi].
  - apply (Hold i a b).
    + rewrite lookup_app_l in Ha |- * by done. exact Ha.
    + destruct (decide (S i < length l)) as [Hi'|Hi'].
      * rewrite lookup_app_l in Hb |- * by done. exact Hb.
      * assert (S i = length l) as Heq by lia.
        rewrite Heq in Hb |- *.
        rewrite list_lookup_middle in Hb |- * by done. exact Hb.
  - apply (Hnew (i - length l) a b).
    + rewrite lookup_app_r in Ha by lia. exact Ha.
    + rewrite lookup_app_r in Hb by lia.
      replace (S i - length l) with (S (i - length l)) in Hb by lia.
      exact Hb.
Qed.

Lemma evenly_spaced_steps (system : System) (params : list float)
    (dt : float) (n : nat) :
  (forall st : State,
     simulate system params st dt !! "t" = Some (prop st "t" + dt)%float) ->
  forall st : State,
    evenly_spaced dt (sample st :: (sample <$> steps system params dt n st)).
Proof.
  intros Htick. induction n as [|n IH]; intros st i a b Ha Hb.
  - destruct i; discriminate Hb.
  - cbn [steps fmap list_fmap] in Ha, Hb. destruct i as [|i].
    + cbn in Ha, Hb. injection Ha as <-. injection Hb as <-.
      unfold time, sample. cbn [fst]. by rewrite Htick.
    + apply (IH (simulate system params st dt) i a b); [exact Ha|exact Hb].
Qed.

Lemma NEURON_MODELS_tick (exp : float -> float) (key : string)
    (system : System) (params : list float) (dt : float) (st : State) :
  lookup_system (NEURON_MODELS exp) key = Some system ->
  simulate system params st dt !! "t" = Some (prop st "t" + dt)%float.
Proof.
  intros [->|[->| ->]]%NEURON_MODELS_lookup;
    cbn [simulate lif_model izhikevich_rs_model hodgkin_huxley_model].
  - apply lif_simulate_t.
  - apply izhikevich_simulate_t.
  - apply hh_simulate_t.
Qed.

(** What an event does to the buffer, with the arguments of the steps. *)
Lemma dispatch_buffer (e : Event) (s : Simulator.t) :
  let s' := fst (dispatch e s) in
  options_dt s' = options_dt s /\
  (plotData s' = plotData s
   \/ (exists x : Sample, plotData s' = [x])
   \/ (exists (system : System) (st : State),
         getCurrentSystem s = Some system /\
         state s = Some st /\
         plotData s'
         = evict (stepsPerFrame system)
             (plotData s ++
              (sample <$> steps system (sliders s) (options_dt s)
                            (stepsPerFrame system) st)))).
Proof.
  destruct e as [| | | |key|i v]; cbn [dispatch]; cbn zeta.
  - rewrite start_run. destruct (animationId s); cbn; auto.
  - destruct (animationId s) as [h|] eqn:Hrun;
      [|rewrite animate_stopped by done; auto].
    destruct (getCurrentSystem s) as [system|] eqn:Hsys;
      [|rewrite (animate_unknown s h) by done; auto].
    destruct (state s) as [st|] eqn:Hst;
      [|rewrite (animate_null s h system) by done; auto].
    rewrite (animate_run s h system st Hrun Hsys Hst). cbn.
    split; [done|]. right; right. exists system, st. auto.
  - rewrite reset_run.
    destruct (getCurrentSystem s) as [system|]; cbn; eauto.
  - rewrite restart_run.
    destruct (getCurrentSystem s) as [system|]; cbn; eauto.
  - rewrite onSystemChange_run.
    destruct (lookup_system (systems s) key) as [system|]; cbn; eauto.
  - rewrite slideTo_run. cbn. auto.
Qed.

Lemma dispatch_evenly_spaced (exp : float -> float) (s : Simulator.t)
    (e : Event) :
  systems s = NEURON_MODELS exp ->
  in_sync s ->
  evenly_spaced (options_dt s) (plotData s) ->
  evenly_spaced (options_dt (fst (dispatch e s)))
    (plotData (fst (dispatch e s))).
Proof.
  intros Hreg Hsync Hdata.
  destruct (dispatch_buffer e s)
    as (-> & [->|[[x ->]|(system & st & Hcur & Hst & ->)]]).
  - done.
  - intros i a b _ Hb. destruct i; discriminate Hb.
  - unfold evict.
    assert (Hall : evenly_spaced (options_dt s)
      (plotData s ++ (sample <$> steps system (sliders s) (options_dt s)
                                   (stepsPerFrame system) st))).
    { unfold in_sync in Hsync. rewrite Hst in Hsync.
      apply last_Some in Hsync as [l Hl]. rewrite Hl in Hdata |- *.
      rewrite <- app_assoc. cbn [app].
      apply evenly_spaced_join; [exact Hdata|].
      apply evenly_spaced_steps. intros st'.
      unfold getCurrentSystem in Hcur. rewrite Hreg in Hcur.
      by eapply NEURON_MODELS_tick. }
    case_bool_decide; [by apply evenly_spaced_drop|done].
Qed.

(** X19: the time axis of the buffer is regular: on the table
    [NEURON_MODELS], whatever the options and the events, each buffered
    sample is exactly one time step later than the sample before it, the
    time step being added in binary64. *)
Theorem sample_times_evenly_spaced (exp : float -> float)
    (options : Options) (events : list Event) :
  let s := run events (fst (create (NEURON_MODELS exp) options)) in
  forall (i : nat) (a b : Sample),
    plotData s !! i = Some a -> plotData s !! S i = Some b ->
    time b = (time a + options_dt s)%float.
Proof.
  cbn zeta.
  set (P := fun s : Simulator.t =>
              systems s = NEURON_MODELS exp /\ in_sync s /\
              evenly_spaced (options_dt s) (plotData s)).
  assert (HP : P (run events (fst (create (NEURON_MODELS exp) options)))).
  { apply run_invariant.
    - intros s e (Hreg & Hsync & Hdata). split; [|split].
      + by destruct (dispatch_effect e s) as [-> _].
      + by apply dispatch_in_sync.
      + by apply (dispatch_evenly_spaced exp).
    - unfold create. rewrite reset_run.
      destruct (getCurrentSystem _) as [system|];
        (split; [done|]); (split; [done|]);
        intros i a b _ Hb; destruct i; discriminate Hb. }
  by destruct HP as (_ & _ & Hdata).
Qed.

Lemma sample_times_evenly_spaced_witness :
  let s := run [TimerStart; Frame] (app Js.exp_ref) in
  plotData s !! 1%nat = Some (Some 0.02%float, Some (-69.979)%float) /\
  plotData s !! 2%nat
    = Some (Some 0.04%float, Some (-69.958021000000002)%float) /\
  (0.04 = 0.02 + 0.02)%float.
Proof.
  intros s.
  assert (H1 : plotData s !! 1%nat
               = Some (Some 0.02%float, Some (-69.979)%float))
    by (vm_compute; reflexivity).
  assert (H2 : plotData s !! 2%nat
               = Some (Some 0.04%float, Some (-69.958021000000002)%float))
    by (vm_compute; reflexivity).
  split; [exact H1|]. split; [exact H2|].
  exact (sample_times_evenly_spaced Js.exp_ref
           {| opt_dt := Some 0.02%float; opt_defaultSystem := Some "lif" |}
           [TimerStart; Frame] 1%nat _ _ H1 H2).
Defined.

End TimeAxis.
